(** * aiocache: an asynchronous key/value cache with TTL expiration

    A shallow embedding of the Python package [aiocache]
    ([clock.py], [cache.py], [key.py], [decorator.py]) and the
    properties of its in-memory backend, its key maker and its
    memoizing decorator.

    Modelling conventions.
    - A Python number used as a timestamp or a duration is a [number]:
      an [int] or a finite [float], each with its exact value in [Q].
      Python compares two such numbers by their exact values, so the
      comparison [expires_at >= now] is [Qle_bool] on the values. The
      sum [x + y] of two numbers is Python's: exact on two [int]s,
      rounded to a [float] otherwise. It is the operation [add] of the
      class [Arith], of which nothing is assumed. Numbers beyond the
      range of a [float], where a sum is infinite or raises, are outside
      the model.
    - A [dict] is a [gmap]; byte-string keys are [string]s (a Rocq
      string is a sequence of bytes).
    - An [async def] whose body never awaits runs without suspension,
      so it is a function from the state before to an outcome and the
      state after.
    - A raised exception is an [outcome] of its own, never a value. *)

From Stdlib Require Import QArith Lqa.
From stdpp Require Import gmap strings pretty list fin_maps.

Local Open Scope Q_scope.

Set Warnings "-register-all".

(** ** Python objects, exceptions and outcomes *)

(** The fragment of Python's object universe that the package inspects:
    [None], numbers ([bool] is an [int]), strings,
    [datetime.timedelta] (held as its total number of seconds), tuples,
    function objects (held by qualified name) and any other object
    (held by the name of its type and its [repr]). *)
Inductive pyobj : Type :=
| PyNone
| PyInt (z : Z)
| PyFloat (q : Q)
| PyStr (s : string)
| PyTimedelta (seconds : Q)
| PyTuple (items : list pyobj)
| PyFunction (qualname : string)
| PyOther (type_name : string) (text : string).

(** A number: an [int], or a [float] held by its exact value. *)
Inductive number : Type :=
| NInt (z : Z)
| NFloat (q : Q).

(** The exact value of a number. *)
Definition num_value (x : number) : Q :=
  match x with
  | NInt z => inject_Z z
  | NFloat q => q
  end.

(** Python's [x + y] on two numbers. *)
Class Arith : Type := add : number → number → number.

(** The exceptions the package raises; the message of a [ValueError]
    is not modelled. *)
Inductive exn : Type :=
| KeyError (key : string)
| ValueError.

Inductive outcome (A : Type) : Type :=
| Return (a : A)
| Raise (e : exn).

Arguments Return {A} a.
Arguments Raise {A} e.

(** Sequencing: an exception raised by the first statement skips the
    rest of the block. *)
#[global] Instance outcome_ret : MRet outcome := λ A a, Return a.

#[global] Instance outcome_bind : MBind outcome := λ A B k m,
  match m with
  | Return a => k a
  | Raise e => Raise e
  end.

(** ** clock.py *)

Module TestClock.

(** [class TestClock]: [self.t = 0]; [now] returns [self.t];
    [sleep(n)] does [self.t += n], the sum being Python's. *)
Record t : Type := Make { time : number }.

Definition __init__ : t := Make (NInt 0).

Definition now (self : t) : number := time self.

Definition sleep `{Arith} (self : t) (n : number) : t :=
  Make (add (time self) n).

End TestClock.

(** ** cache.py *)

(** [class Cache]: the operations every backend implements. Each takes
    the backend object and returns the outcome of the call together
    with the object after it. *)
Class Cache (C : Type) : Type := {
  get : C → string → outcome pyobj * C;
  put : C → string → pyobj → option number → outcome unit * C;
  remove : C → string → outcome unit * C;
  remove_expired : C → outcome unit * C;
  data : C → outcome (gmap string pyobj) * C
}.

(** [Cache.getOrDefault]: [try: return await self.get(key)] /
    [except KeyError: return default]. *)
Definition getOrDefault {C} `{Cache C} (self : C) (key : string)
    (default : pyobj) : outcome pyobj * C :=
  match get self key with
  | (Raise (KeyError _), self') => (Return default, self')
  | r => r
  end.

(** A stored entry: [(value, expires_at)], [expires_at = None] for an
    entry that never expires. *)
Abbreviation entry := (pyobj * option number)%type.

(** The test shared by [get], [remove_expired] and [data]:
    [expires_at is None or expires_at >= now]. *)
Definition live (expires_at : option number) (now : number) : bool :=
  match expires_at with
  | None => true
  | Some e => Qle_bool (num_value now) (num_value e)
  end.

Module NoCache.

(** [class NoCache(Cache)]: the only state is the injected clock. *)
Record t : Type := Make { clock : TestClock.t }.

Definition get (self : t) (key : string) : outcome pyobj * t :=
  (Raise (KeyError key), self).

Definition put (self : t) (key : string) (value : pyobj)
    (ttl : option number) : outcome unit * t :=
  (Return (), self).

Definition remove (self : t) (key : string) : outcome unit * t :=
  (Return (), self).

Definition remove_expired (self : t) : outcome unit * t :=
  (Return (), self).

Definition data (self : t) : outcome (gmap string pyobj) * t :=
  (Return ∅, self).

End NoCache.

#[global] Instance NoCache_Cache : Cache NoCache.t := {
  get := NoCache.get;
  put := NoCache.put;
  remove := NoCache.remove;
  remove_expired := NoCache.remove_expired;
  data := NoCache.data
}.

Module DictCache.

Record t : Type := Make {
  clock : TestClock.t;
  _data : gmap string entry
}.

Definition __init__ (clock : TestClock.t) : t := Make clock ∅.

(** [get]: [self._data[key]] raises [KeyError(key)] when the key is
    missing; when the test fails the body falls off its end, and a
    Python function that does so returns [None]. *)
Definition get (self : t) (key : string) : outcome pyobj * t :=
  let now := TestClock.now (clock self) in
  match _data self !! key with
  | None => (Raise (KeyError key), self)
  | Some (value, expires_at) =>
      if live expires_at now then (Return value, self)
      else (Return PyNone, self)
  end.

(** [put]: [expires_at = ttl + now if ttl is not None else None], the
    sum being Python's. *)
Definition put `{Arith} (self : t) (key : string) (value : pyobj)
    (ttl : option number) : outcome unit * t :=
  let now := TestClock.now (clock self) in
  let expires_at :=
    match ttl with
    | Some d => Some (add d now)
    | None => None
    end in
  (Return (), Make (clock self) (<[key := (value, expires_at)]> (_data self))).

(** [remove]: [del self._data[key]] raises [KeyError(key)] when the
    key is missing. *)
Definition remove (self : t) (key : string) : outcome unit * t :=
  match _data self !! key with
  | None => (Raise (KeyError key), self)
  | Some _ => (Return (), Make (clock self) (delete key (_data self)))
  end.

(** [remove_expired]: the dict comprehension keeps the items that
    pass the liveness test and rebinds [self._data]. *)
Definition remove_expired (self : t) : outcome unit * t :=
  let now := TestClock.now (clock self) in
  (Return (),
   Make (clock self)
        (filter (λ kv : string * entry, live (snd (snd kv)) now = true)
                (_data self))).

(** [data]: a fresh dict of the live items, values only. *)
Definition data (self : t) : outcome (gmap string pyobj) * t :=
  let now := TestClock.now (clock self) in
  (Return (fst <$>
           filter (λ kv : string * entry, live (snd (snd kv)) now = true)
                  (_data self)),
   self).

(** [await cache.clock.sleep(n)]: the clock object is the cache's. *)
Definition sleep `{Arith} (self : t) (n : number) : t :=
  Make (TestClock.sleep (clock self) n) (_data self).

End DictCache.

#[global] Instance DictCache_Cache `{Arith} : Cache DictCache.t := {
  get := DictCache.get;
  put := DictCache.put;
  remove := DictCache.remove;
  remove_expired := DictCache.remove_expired;
  data := DictCache.data
}.

(** ** key.py *)

(** What [ReprKeyMaker] reads of a function object: [fn.__module__],
    [fn.__qualname__], [fn.__code__.co_varnames] and
    [fn.__code__.co_argcount]. *)
Record function : Type := {
  __module__ : string;
  __qualname__ : string;
  co_varnames : list string;
  co_argcount : nat
}.

(** The keyword arguments of a call: a [dict], walked by [items()] in
    insertion order. *)
Definition kwargs_t : Type := list (string * pyobj).

(** [sep.join(items)] of Python's [str]. *)
Definition str_join (sep : string) (items : list string) : string :=
  match items with
  | [] => EmptyString
  | x :: rest => foldl (λ acc y, acc +:+ sep +:+ y) x rest
  end.

Module ReprKeyMaker.

(** [self.hash] and [self.hash_args]: absent ([None] / [False]) or a
    hash constructor, held as the map from the hashed bytes to
    [hexdigest()]. *)
Record t : Type := Make {
  hash : option (string → string);
  hash_args : option (string → string)
}.

(** [ReprKeyMaker()]: [hash=None, hash_args=False]. *)
Definition __init__ : t := Make None None.

Section call.
(** Python's builtin [repr]. *)
Variable repr : pyobj → string.

Definition argnames (fn : function) : list string :=
  take (co_argcount fn) (co_varnames fn).

(** [len(argnames) > 0 and argnames[0] in ['self', 'cls']] *)
Definition is_method (fn : function) : bool :=
  match argnames fn with
  | [] => false
  | first :: _ => bool_decide (first ∈ ["self"; "cls"])
  end.

Definition repr_all_args (fn : function) (args : list pyobj)
    (kwargs : kwargs_t) : string :=
  let args := if is_method fn then drop 1 args else args in
  str_join ", "
    ((repr <$> args) ++
     ((λ kv : string * pyobj,
         repr (PyStr (fst kv)) +:+ ": " +:+ repr (snd kv)) <$> kwargs)).

(** [__call__]; [str.encode('utf-8')] is the identity on the bytes
    of a string. *)
Definition __call__ (self : t) (fn : function) (args : list pyobj)
    (kwargs : kwargs_t) : string :=
  let repr_all_args := repr_all_args fn args kwargs in
  let repr_all_args :=
    match hash_args self with
    | Some h => h repr_all_args
    | None => repr_all_args
    end in
  let key :=
    __module__ fn +:+ ":" +:+ __qualname__ fn +:+ "(" +:+ repr_all_args +:+ ")" in
  let key :=
    match hash self with
    | Some h => h key
    | None => key
    end in
  key.

End call.

End ReprKeyMaker.

(** ** decorator.py *)

Definition is_None (o : pyobj) : bool :=
  match o with PyNone => true | _ => false end.

(** [isinstance(t, (int, float))] *)
Definition isinstance_number (o : pyobj) : bool :=
  match o with PyInt _ | PyFloat _ => true | _ => false end.

Definition isinstance_timedelta (o : pyobj) : bool :=
  match o with PyTimedelta _ => true | _ => false end.

(** [isinstance(ttl, tuple) and len(ttl) == 2] *)
Definition is_pair (o : pyobj) : bool :=
  match o with
  | PyTuple items => bool_decide (length items = 2%nat)
  | _ => false
  end.

(** [ttl[i]] on a tuple. *)
Definition item (o : pyobj) (i : nat) : pyobj :=
  match o with
  | PyTuple items => default PyNone (items !! i)
  | _ => PyNone
  end.

(** The number of seconds of a duration: the number itself, or
    [total_seconds()] of a [timedelta], a [float]. *)
Definition seconds_of (o : pyobj) : number :=
  match o with
  | PyInt z => NInt z
  | PyFloat q => NFloat q
  | PyTimedelta s => NFloat s
  | _ => NInt 0
  end.

Definition _parse_timedelta (t : pyobj) : outcome (option number) :=
  if is_None t then Return None
  else if isinstance_number t then Return (Some (seconds_of t))
  else if isinstance_timedelta t then Return (Some (seconds_of t))
  else Raise ValueError.

(** The closures [_parse_ttl_function] returns, one constructor per
    [lambda] of the source, each with the variables it captures. *)
Inductive ttl_function : Type :=
| lambda_None
| lambda_constant (ttl_value : option number)
| lambda_uniform (ttl_min ttl_max : number)
| lambda_call (ttl : pyobj).

Definition _parse_ttl_function (ttl : pyobj) : outcome ttl_function :=
  (* TTL is None: turn off caching *)
  if is_None ttl then Return lambda_None
  (* TTL is a constant value *)
  else if isinstance_number ttl || isinstance_timedelta ttl then
    ttl_value ← _parse_timedelta ttl;
    Return (lambda_constant ttl_value)
  (* TTL is a tuple (ttl_min, ttl_max) *)
  else if is_pair ttl then
    ttl_min ← _parse_timedelta (item ttl 0);
    ttl_max ← _parse_timedelta (item ttl 1);
    match ttl_min, ttl_max with
    | Some ttl_min, Some ttl_max => Return (lambda_uniform ttl_min ttl_max)
    | _, _ => Raise ValueError
    end
  else if is_pair ttl then Return (lambda_call ttl)
  else Raise ValueError.

(** The state [cached(cache, key_maker, ttl)] sets up before it returns
    the decorator: the cache, the key maker, the resolved TTL function
    and the empty table [ongoing] of pending tasks, named by number. *)
Record memoizer (C : Type) : Type := {
  cache : C;
  key_maker : ReprKeyMaker.t;
  ttl : ttl_function;
  ongoing : gmap string nat
}.

Arguments cache {C} _.
Arguments key_maker {C} _.
Arguments ttl {C} _.
Arguments ongoing {C} _.

(** [cached]: its first statement is [ttl = _parse_ttl_function(ttl)],
    so an exception raised there leaves no decorator and no wrapper. *)
Definition cached {C} (cache : C) (key_maker : ReprKeyMaker.t)
    (ttl : pyobj) : outcome (memoizer C) :=
  ttl ← _parse_ttl_function ttl;
  Return {| cache := cache; key_maker := key_maker; ttl := ttl; ongoing := ∅ |}.

Section wrapper.
Context {C : Type} `{Cache C}.

(** Python's call of the object captured by [lambda_call] on
    [(fn, args, kwargs, value)]. *)
Variable call_ttl :
  pyobj → function → list pyobj → kwargs_t → pyobj → outcome pyobj.

(** [value_ttl = ttl(fn, args, kwargs, value)]; [sample] is what
    [random.random()] returns at this call, [random.uniform(a, b)]
    being the [float] [a + (b - a) * random()]. *)
Definition value_ttl (ttl : ttl_function) (sample : Q) (fn : function)
    (args : list pyobj) (kwargs : kwargs_t) (value : pyobj)
    : outcome (option number) :=
  match ttl with
  | lambda_None => Return None
  | lambda_constant ttl_value => Return ttl_value
  | lambda_uniform ttl_min ttl_max =>
      Return (Some (NFloat (num_value ttl_min
                            + (num_value ttl_max - num_value ttl_min) * sample)))
  | lambda_call ttl =>
      r ← call_ttl ttl fn args kwargs value;
      _parse_timedelta r
  end.

(** [get_or_compute] up to the [await] of the call of [fn]: the result of
    the task when the cache answers, [None] when [fn] is to be
    called. *)
Definition lookup_cached (cache : C) (key : string)
    : option (outcome pyobj) * C :=
  match get cache key with
  | (Return value, cache) => (Some (Return value), cache)
  | (Raise (KeyError _), cache) => (None, cache)
  | (Raise e, cache) => (Some (Raise e), cache)
  end.

(** [get_or_compute] from the point where [fn] has answered
    [computed]. *)
Definition store_computed (ttl : ttl_function) (sample : Q)
    (fn : function) (args : list pyobj) (kwargs : kwargs_t)
    (cache : C) (key : string) (computed : outcome pyobj)
    : outcome pyobj * C :=
  match computed with
  | Raise e => (Raise e, cache)
  | Return value =>
      match value_ttl ttl sample fn args kwargs value with
      | Raise e => (Raise e, cache)
      | Return value_ttl =>
          match put cache key value value_ttl with
          | (Return _, cache) => (Return value, cache)
          | (Raise e, cache) => (Raise e, cache)
          end
      end
  end.

(** [get_or_compute] as a whole, [fn] answering [computed] with no
    other task running in between. *)
Definition get_or_compute (ttl : ttl_function) (sample : Q)
    (fn : function) (args : list pyobj) (kwargs : kwargs_t)
    (cache : C) (key : string) (computed : outcome pyobj)
    : outcome pyobj * C :=
  match lookup_cached cache key with
  | (Some result, cache) => (result, cache)
  | (None, cache) => store_computed ttl sample fn args kwargs cache key computed
  end.

(** *** The wrapper on the event loop

    [wrapper] runs on asyncio's single-threaded loop: a coroutine
    runs alone from one suspension point to the next. The block
    under [async with ongoing_lock] holds no [await], so the lock is
    free whenever a coroutine reaches it and the block runs in one
    piece. The suspension points are the start of a created task,
    the [await] of [fn], the [await pending] of a caller, and the
    call of a task's done-callback, which the loop makes after the
    task has finished. *)

Variable repr : pyobj → string.
Variable fn : function.
(** What the [n]-th execution of [fn] answers on the given arguments,
    and the [n]-th sample of the random generator. *)
Variable fn_result : nat → list pyobj → kwargs_t → outcome pyobj.
Variable samples : nat → Q.

Inductive task_state : Type :=
| Created
| Calling (execution : nat)
| Done (result : outcome pyobj).

(** A task running [get_or_compute], with the variables the closure
    captures and whether its done-callback has run. *)
Record task : Type := {
  task_key : string;
  task_args : list pyobj;
  task_kwargs : kwargs_t;
  state : task_state;
  popped : bool
}.

(** An invocation of [wrapper]. *)
Inductive caller : Type :=
| Invoked (args : list pyobj) (kwargs : kwargs_t)
| Awaiting (pending : nat)
| Returned (result : outcome pyobj).

Record loop : Type := {
  memo : memoizer C;
  tasks : list task;
  executions : nat;
  callers : list caller
}.

Definition set_cache (m : memoizer C) (c : C) : memoizer C :=
  {| cache := c; key_maker := key_maker m; ttl := ttl m; ongoing := ongoing m |}.

Definition set_ongoing (m : memoizer C) (o : gmap string nat) : memoizer C :=
  {| cache := cache m; key_maker := key_maker m; ttl := ttl m; ongoing := o |}.

Definition set_state (t : task) (st : task_state) : task :=
  {| task_key := task_key t; task_args := task_args t;
     task_kwargs := task_kwargs t; state := st; popped := popped t |}.

Definition set_popped (t : task) : task :=
  {| task_key := task_key t; task_args := task_args t;
     task_kwargs := task_kwargs t; state := state t; popped := true |}.

(** What the loop runs next. *)
Inductive event : Type :=
| Enter (i : nat)      (* caller [i] runs [wrapper] up to [await pending] *)
| Start (p : nat)      (* task [p] runs up to the [await] of [fn] *)
| Finish (p : nat)     (* [fn] answers and task [p] runs to its end *)
| Callback (p : nat)   (* the done-callback of task [p]: [ongoing.pop(key)] *)
| Resume (i : nat).    (* caller [i] receives the result of its task *)

Definition step (e : event) (s : loop) : option loop :=
  match e with
  | Enter i =>
      match callers s !! i with
      | Some (Invoked args kwargs) =>
          let key := ReprKeyMaker.__call__ repr (key_maker (memo s)) fn args kwargs in
          match ongoing (memo s) !! key with
          | Some pending =>
              Some {| memo := memo s; tasks := tasks s;
                      executions := executions s;
                      callers := <[i := Awaiting pending]> (callers s) |}
          | None =>
              let pending := length (tasks s) in
              Some {| memo := set_ongoing (memo s) (<[key := pending]> (ongoing (memo s)));
                      tasks := tasks s ++
                        [{| task_key := key; task_args := args;
                            task_kwargs := kwargs; state := Created;
                            popped := false |}];
                      executions := executions s;
                      callers := <[i := Awaiting pending]> (callers s) |}
          end
      | _ => None
      end
  | Start p =>
      match tasks s !! p with
      | Some t =>
          match state t with
          | Created =>
              match lookup_cached (cache (memo s)) (task_key t) with
              | (Some result, c) =>
                  Some {| memo := set_cache (memo s) c;
                          tasks := <[p := set_state t (Done result)]> (tasks s);
                          executions := executions s;
                          callers := callers s |}
              | (None, c) =>
                  Some {| memo := set_cache (memo s) c;
                          tasks := <[p := set_state t (Calling (executions s))]> (tasks s);
                          executions := S (executions s);
                          callers := callers s |}
              end
          | _ => None
          end
      | None => None
      end
  | Finish p =>
      match tasks s !! p with
      | Some t =>
          match state t with
          | Calling n =>
              let '(result, c) :=
                store_computed (ttl (memo s)) (samples n) fn
                  (task_args t) (task_kwargs t) (cache (memo s)) (task_key t)
                  (fn_result n (task_args t) (task_kwargs t)) in
              Some {| memo := set_cache (memo s) c;
                      tasks := <[p := set_state t (Done result)]> (tasks s);
                      executions := executions s;
                      callers := callers s |}
          | _ => None
          end
      | None => None
      end
  | Callback p =>
      match tasks s !! p with
      | Some t =>
          match state t, popped t with
          | Done _, false =>
              Some {| memo := set_ongoing (memo s) (delete (task_key t) (ongoing (memo s)));
                      tasks := <[p := set_popped t]> (tasks s);
                      executions := executions s;
                      callers := callers s |}
          | _, _ => None
          end
      | None => None
      end
  | Resume i =>
      match callers s !! i with
      | Some (Awaiting pending) =>
          match state <$> tasks s !! pending with
          | Some (Done result) =>
              Some {| memo := memo s; tasks := tasks s;
                      executions := executions s;
                      callers := <[i := Returned result]> (callers s) |}
          | _ => None
          end
      | _ => None
      end
  end.

(** A schedule is the list of events the loop runs, in order; it is
    [None] when an event is not enabled where it stands. *)
Fixpoint run (schedule : list event) (s : loop) : option loop :=
  match schedule with
  | [] => Some s
  | e :: rest =>
      match step e s with
      | Some s' => run rest s'
      | None => None
      end
  end.

(** The loop when [calls] have just been made on a fresh wrapper. *)
Definition invoke (m : memoizer C) (calls : list (list pyobj * kwargs_t)) : loop :=
  {| memo := m; tasks := []; executions := 0;
     callers := (λ c, Invoked (fst c) (snd c)) <$> calls |}.

End wrapper.


(** ** The statements of the specification *)

(** *** The key format *)

(** A list of items written out with [", "] between neighbours. *)
Fixpoint comma_separated (items : list string) : string :=
  match items with
  | [] => EmptyString
  | [x] => x
  | x :: rest => x +:+ ", " +:+ comma_separated rest
  end.

(** The callable takes a receiver: its first declared parameter is
    named [self] or [cls]. *)
Definition takes_receiver (fn : function) : Prop :=
  ∃ first, take (co_argcount fn) (co_varnames fn) !! 0%nat = Some first
           ∧ (first = "self" ∨ first = "cls").

#[global] Instance takes_receiver_dec fn : Decision (takes_receiver fn).
Proof.
  unfold takes_receiver.
  destruct (take (co_argcount fn) (co_varnames fn) !! 0%nat) as [first|].
  - destruct (decide (first = "self")) as [->|]; [left; eauto|].
    destruct (decide (first = "cls")) as [->|]; [left; eauto|].
    right. intros (x & [= <-] & [?|?]); done.
  - right. intros (x & [=] & _).
Defined.

Section key_format.
Variable repr : pyobj → string.

(** The arguments that enter the key: all of them, or all but the
    receiver. *)
Definition keyed_args (fn : function) (args : list pyobj) : list pyobj :=
  if decide (takes_receiver fn) then tail args else args.

(** The format as the specification words it:
    [<module>:<qualifiedName>(<arg1>, ..., <kw1>=<val1>, ...)]. *)
Definition spec_key (fn : function) (args : list pyobj) (kwargs : kwargs_t)
    : string :=
  __module__ fn +:+ ":" +:+ __qualname__ fn +:+ "(" +:+
  comma_separated
    ((repr <$> keyed_args fn args) ++
     ((λ kv : string * pyobj, fst kv +:+ "=" +:+ repr (snd kv)) <$> kwargs))
  +:+ ")".

(** The same format with a keyword argument written as the [repr] of
    its name, a colon, a space, and the [repr] of its value. *)
Definition colon_key (fn : function) (args : list pyobj) (kwargs : kwargs_t)
    : string :=
  __module__ fn +:+ ":" +:+ __qualname__ fn +:+ "(" +:+
  comma_separated
    ((repr <$> keyed_args fn args) ++
     ((λ kv : string * pyobj,
         repr (PyStr (fst kv)) +:+ ": " +:+ repr (snd kv)) <$> kwargs))
  +:+ ")".

End key_format.

(** Python's [repr] on integers, on [None] and on strings of letters
    and digits (which it writes between single quotes); an object of
    another kind is held with its text. *)
Definition repr_plain (o : pyobj) : string :=
  match o with
  | PyNone => "None"
  | PyInt z => pretty z
  | PyStr s => "'" +:+ s +:+ "'"
  | PyOther _ text => text
  | _ => "..."
  end.

(** What follows the first item of a joined list. *)
Definition joined_tail (sep : string) (rest : list string) : string :=
  foldr (λ y s, sep +:+ y +:+ s) EmptyString rest.

(** *** The TTL specifications a memoizer accepts *)

(** A duration that is not [None]: a number or a [timedelta]. *)
Definition is_duration (o : pyobj) : Prop :=
  match o with
  | PyInt _ | PyFloat _ | PyTimedelta _ => True
  | _ => False
  end.

#[global] Instance is_duration_dec o : Decision (is_duration o).
Proof. destruct o; simpl; apply _. Defined.

(** [None], a numeric or [timedelta] constant, a two-element tuple of
    durations that are not [None], or a function. *)
Definition valid_ttl (o : pyobj) : Prop :=
  match o with
  | PyNone | PyInt _ | PyFloat _ | PyTimedelta _ | PyFunction _ => True
  | PyTuple [ttl_min; ttl_max] => is_duration ttl_min ∧ is_duration ttl_max
  | _ => False
  end.

(** *** The objects of the examples *)

(** Python's [+] where it does not round: on two [int]s, and, with a
    [float] operand, on numbers whose exact sum is a [float], as the
    whole numbers of seconds of the examples are. The examples are
    read with it; the properties are stated for every [Arith]. *)
#[global] Instance add_unrounded : Arith := λ x y,
  match x, y with
  | NInt a, NInt b => NInt (a + b)
  | _, _ => NFloat (num_value x + num_value y)
  end.

(** [async def f(x)] of module [m]; [def g(self, x)] of class [K]. *)
Definition example_f : function :=
  {| __module__ := "m"; __qualname__ := "f";
     co_varnames := ["x"]; co_argcount := 1 |}.

Definition example_method : function :=
  {| __module__ := "m"; __qualname__ := "K.g";
     co_varnames := ["self"; "x"]; co_argcount := 2 |}.

(** The in-memory cache of a memoized [f] after [f(5)] was stored with
    a TTL of one second and the clock was moved by two. *)
Definition example_stale : DictCache.t :=
  DictCache.sleep
    (snd (DictCache.put (DictCache.__init__ TestClock.__init__)
            "m:f(5)" (PyInt 25) (Some (NInt 1))))
    (NInt 2).

(** [DictCache(clock=TestClock())] after [put("a", 1, ttl=1)]. *)
Definition example_cache : DictCache.t :=
  snd (DictCache.put (DictCache.__init__ TestClock.__init__) "a" (PyInt 1)
         (Some (NInt 1))).

(** ** The invariants of the event loop *)

Section invariants.
Context {C : Type} `{Cache C}.
Variable call_ttl :
  pyobj → function → list pyobj → kwargs_t → pyobj → outcome pyobj.
Variable repr : pyobj → string.
Variable fn : function.
Variable fn_result : nat → list pyobj → kwargs_t → outcome pyobj.
Variable samples : nat → Q.

(** *** When the cache answers

    The cache is [c0] and its [get] answers [answer] for [key]: every
    task is new or done with that answer, and nothing has executed. *)

Section answered.
Variable c0 : C.
Variable km : ReprKeyMaker.t.
Variable key : string.
Variable answer : pyobj.

Definition task_answered (t : task) : Prop :=
  task_key t = key ∧ (state t = Created ∨ state t = Done (Return answer)).

Definition caller_answered (c : caller) : Prop :=
  match c with
  | Invoked args kwargs => ReprKeyMaker.__call__ repr km fn args kwargs = key
  | Awaiting _ => True
  | Returned result => result = Return answer
  end.

Definition all_answered (s : loop) : Prop :=
  cache (memo s) = c0 ∧ key_maker (memo s) = km ∧ executions s = 0%nat
  ∧ Forall task_answered (tasks s) ∧ Forall caller_answered (callers s).

End answered.

(** *** When the cache misses

    The calls are [fn(args, kwargs)], of key [key], on a cache [c0]
    whose [get] raises [KeyError] for that key. *)

Section missed.
Variable c0 : C.
Variable km : ReprKeyMaker.t.
Variable policy : ttl_function.
Variable key : string.
Variable args : list pyobj.
Variable kwargs : kwargs_t.

(** What the first execution of [fn] leaves as the result of its
    task, the cache being [c] when [fn] answers. *)
Definition first_result (c : C) : outcome pyobj :=
  fst (store_computed call_ttl policy (samples 0) fn args kwargs c key
         (fn_result 0%nat args kwargs)).

Definition task_progress (s : loop) (t : task) : Prop :=
  match state t with
  | Created => executions s = 0%nat ∧ cache (memo s) = c0
  | Calling n => n = 0%nat ∧ executions s = 1%nat
  | Done r => executions s = 1%nat ∧ ∃ c, r = first_result c
  end.

Definition only_task (s : loop) (t : task) : Prop :=
  tasks s = [t] ∧ task_key t = key ∧ task_args t = args
  ∧ task_kwargs t = kwargs ∧ task_progress s t.

Definition caller_of (t : task) (may_enter : bool) (c : caller) : Prop :=
  match c with
  | Invoked a kw => may_enter = true ∧ a = args ∧ kw = kwargs
  | Awaiting pending => pending = 0%nat
  | Returned r => state t = Done r
  end.

(** No done-callback has run yet: callers may still enter. *)
Definition gathering (s : loop) : Prop :=
  key_maker (memo s) = km ∧ ttl (memo s) = policy
  ∧ ((tasks s = [] ∧ ongoing (memo s) !! key = None
      ∧ executions s = 0%nat ∧ cache (memo s) = c0
      ∧ Forall (λ c, c = Invoked args kwargs) (callers s))
     ∨ ∃ t, only_task s t ∧ popped t = false
            ∧ ongoing (memo s) !! key = Some 0%nat
            ∧ Forall (caller_of t true) (callers s)).

(** Every caller has entered. *)
Definition in_flight (s : loop) : Prop :=
  key_maker (memo s) = km ∧ ttl (memo s) = policy
  ∧ ∃ t, only_task s t ∧ Forall (caller_of t false) (callers s).

Definition is_Callback (e : event) : bool :=
  match e with Callback _ => true | _ => false end.

Definition has_entered (c : caller) : bool :=
  match c with Invoked _ _ => false | _ => true end.

End missed.

End invariants.

(** ** decorator.py: [invalidate] *)

Section invalidate.
Context {C : Type} `{Cache C}.
Variable repr : pyobj → string.
Variable fn : function.

(** [invalidate]: [key = key_maker(fn, args, kwargs)], then
    [await cache.remove(key)]; the table [ongoing] is not touched. *)
Definition invalidate (m : memoizer C) (args : list pyobj) (kwargs : kwargs_t)
    : outcome unit * memoizer C :=
  let key := ReprKeyMaker.__call__ repr (key_maker m) fn args kwargs in
  let '(r, c) := remove (cache m) key in
  (r, set_cache m c).

End invalidate.

(** ** Counting tasks and callers *)

(** How many items of a list pass a test. *)
Fixpoint count_if {A} (f : A → bool) (l : list A) : nat :=
  match l with
  | [] => 0
  | x :: l => (if f x then 1 else 0) + count_if f l
  end.

(** The task has left its first state. *)
Definition has_started (t : task) : bool :=
  match state t with Created => false | _ => true end.

(** The table [ongoing] holds exactly the tasks whose done-callback
    has not run, each under its key. *)
Definition table_tracks_tasks {C} (s : @loop C) : Prop :=
  ∀ k p,
    ongoing (memo s) !! k = Some p ↔
    ∃ t, tasks s !! p = Some t ∧ task_key t = k ∧ popped t = false.

(** The executions are at most the started tasks, and the tasks at most
    the callers that have entered. *)
Definition executions_bounded {C} (s : @loop C) : Prop :=
  (executions s ≤ count_if has_started (tasks s))%nat
  ∧ (length (tasks s) ≤ count_if has_entered (callers s))%nat.

(** * Properties *)

(** ** The in-memory backend *)

Lemma live_true_iff (expires_at : option number) (now : number) :
  live expires_at now = true ↔
  expires_at = None ∨ ∃ e, expires_at = Some e ∧ num_value now <= num_value e.
Proof.
  destruct expires_at as [e|]; simpl.
  - rewrite Qle_bool_iff. split.
    + intros Hle. right. eauto.
    + intros [?|(e' & [= ->] & Hle)]; done.
  - split; [by left | done].
Qed.

Lemma live_false_iff (expires_at : option number) (now : number) :
  live expires_at now = false ↔
  ∃ e, expires_at = Some e ∧ num_value e < num_value now.
Proof.
  rewrite <- not_true_iff_false, live_true_iff. split.
  - intros Hn. destruct expires_at as [e|].
    + exists e. split; [done|]. apply Qnot_le_lt. intros Hle.
      apply Hn. right. eauto.
    + destruct Hn. by left.
  - intros (e & -> & Hlt) [?|(e' & [= <-] & Hle)]; [done|].
    by apply (Qlt_not_le _ _ Hlt).
Qed.

Lemma lookup_remove_expired (self : DictCache.t) (key : string) :
  DictCache._data (snd (DictCache.remove_expired self)) !! key =
  match DictCache._data self !! key with
  | Some (value, expires_at) =>
      if live expires_at (TestClock.now (DictCache.clock self))
      then Some (value, expires_at) else None
  | None => None
  end.
Proof.
  simpl. rewrite map_lookup_filter.
  destruct (DictCache._data self !! key) as [[value expires_at]|]; simpl; [|done].
  case_guard as Hlive; simpl in Hlive.
  - by rewrite Hlive.
  - by apply not_true_is_false in Hlive as ->.
Qed.

Lemma get_falls_through
    (self : DictCache.t) (key : string) (value : pyobj) (e : number) :
  DictCache._data self !! key = Some (value, Some e) →
  num_value e < num_value (TestClock.now (DictCache.clock self)) →
  DictCache.get self key = (Return PyNone, self).
Proof.
  intros Hkey Hlt. unfold DictCache.get. rewrite Hkey.
  assert (live (Some e) (TestClock.now (DictCache.clock self)) = false) as ->; [|done].
  apply live_false_iff. eauto.
Qed.

(** C1: on the in-memory backend, [get] of a key that is stored with an
    expiry time strictly before the clock's time does not raise
    [KeyError]: the call returns [None] and leaves the cache as it
    was. *)
Theorem DictCache_get_expired_returns_None
    (self : DictCache.t) (key : string) (value : pyobj) (e : number) :
  DictCache._data self !! key = Some (value, Some e) →
  num_value e < num_value (TestClock.now (DictCache.clock self)) →
  DictCache.get self key = (Return PyNone, self)
  ∧ ¬ ∃ k, fst (DictCache.get self key) = Raise (KeyError k).
Proof.
  intros Hkey Hlt. rewrite (get_falls_through self key value e Hkey Hlt).
  split; [done|]. by intros [k [=]].
Qed.

(** The scenario of the specification: [put("a", 1, ttl=1)], then
    [clock.sleep(2)], then [get("a")]. *)
Lemma DictCache_get_expired_scenario :
  DictCache.get example_cache "a" = (Return (PyInt 1), example_cache)
  ∧ DictCache.get (DictCache.sleep example_cache (NInt 2)) "a"
    = (Return PyNone, DictCache.sleep example_cache (NInt 2)).
Proof.
  split; [reflexivity|].
  apply (DictCache_get_expired_returns_None
           (DictCache.sleep example_cache (NInt 2)) "a" (PyInt 1) (NInt 1)).
  - reflexivity.
  - reflexivity.
Defined.

(** C4: on the in-memory backend, [remove] of a key that is absent from
    the store raises [KeyError] (the store is left unchanged); on the
    discarding backend [remove] returns without failure. *)
Theorem DictCache_remove_absent_raises (self : DictCache.t) (key : string) :
  DictCache._data self !! key = None →
  DictCache.remove self key = (Raise (KeyError key), self)
  ∧ ∀ c : NoCache.t, NoCache.remove c key = (Return (), c).
Proof.
  intros Hkey. unfold DictCache.remove. by rewrite Hkey.
Qed.

Lemma DictCache_remove_absent_scenario :
  DictCache.remove (DictCache.__init__ TestClock.__init__) "foo"
  = (Raise (KeyError "foo"), DictCache.__init__ TestClock.__init__)
  ∧ ∀ c : NoCache.t, NoCache.remove c "foo" = (Return (), c).
Proof.
  apply (DictCache_remove_absent_raises
           (DictCache.__init__ TestClock.__init__) "foo").
  reflexivity.
Defined.

(** C7: on the in-memory backend, after [put(key, value, ttl)] with
    [ttl > 0] the entry of [key] is [value] with expiry time [ttl] plus
    the clock's time at the call, the sum being the one Python computes,
    whatever the store held for [key] before; [get(key)] returns
    [value] at every instant up to and including that expiry time, that
    is, whenever the clock reads a time that is not after it, be it
    reached by a sleep or otherwise, and so at the instant of the [put]
    itself when the sum is not before the clock's time (when rounding
    has made it so, [get] returns [None] at once); the clock and the
    other keys are as before; and a [put] over an earlier [put] of the
    same key leaves the store that the later [put] alone would
    leave. *)
Theorem DictCache_put_then_get `{Arith}
    (self : DictCache.t) (key : string) (value : pyobj) (ttl : number) :
  0 < num_value ttl →
  let now := TestClock.now (DictCache.clock self) in
  let expires_at := add ttl now in
  let self' := snd (DictCache.put self key value (Some ttl)) in
  fst (DictCache.put self key value (Some ttl)) = Return ()
  ∧ DictCache.clock self' = DictCache.clock self
  ∧ DictCache._data self' !! key = Some (value, Some expires_at)
  ∧ (∀ clock,
       num_value (TestClock.now clock) <= num_value expires_at →
       DictCache.get (DictCache.Make clock (DictCache._data self')) key
       = (Return value, DictCache.Make clock (DictCache._data self')))
  ∧ (∀ n,
       num_value (TestClock.now (TestClock.sleep (DictCache.clock self) n))
       <= num_value expires_at →
       DictCache.get (DictCache.sleep self' n) key
       = (Return value, DictCache.sleep self' n))
  ∧ (num_value now <= num_value expires_at →
     DictCache.get self' key = (Return value, self'))
  ∧ (num_value expires_at < num_value now →
     DictCache.get self' key = (Return PyNone, self'))
  ∧ (∀ other, other ≠ key →
       DictCache._data self' !! other = DictCache._data self !! other)
  ∧ (∀ value0 ttl0,
       snd (DictCache.put (snd (DictCache.put self key value0 ttl0))
              key value (Some ttl)) = self').
Proof.
  intros Hpos now expires_at self'. subst now expires_at self'. simpl.
  split; [done|]. split; [done|]. split; [by rewrite lookup_insert_eq|].
  split; [|split; [|split; [|split; [|split]]]].
  - intros clock Hle. unfold DictCache.get.
    cbn [DictCache._data DictCache.clock]. rewrite lookup_insert_eq.
    assert (live (Some (add ttl (TestClock.now (DictCache.clock self))))
              (TestClock.now clock) = true) as ->; [|done].
    apply live_true_iff. right. eauto.
  - intros n Hle. unfold DictCache.get, DictCache.sleep.
    cbn [DictCache._data DictCache.clock]. rewrite lookup_insert_eq.
    assert (live (Some (add ttl (TestClock.now (DictCache.clock self))))
              (TestClock.now (TestClock.sleep (DictCache.clock self) n)) = true)
      as ->; [|done].
    apply live_true_iff. right. eauto.
  - intros Hle. unfold DictCache.get.
    cbn [DictCache._data DictCache.clock]. rewrite lookup_insert_eq.
    assert (live (Some (add ttl (TestClock.now (DictCache.clock self))))
              (TestClock.now (DictCache.clock self)) = true) as ->; [|done].
    apply live_true_iff. right. eauto.
  - intros Hlt. apply (get_falls_through _ key value
                         (add ttl (TestClock.now (DictCache.clock self))));
      [|done].
    cbn [DictCache._data]. by rewrite lookup_insert_eq.
  - intros other Hne. by rewrite lookup_insert_ne.
  - intros value0 ttl0. by rewrite insert_insert_eq.
Qed.

(** After [put("a", 1, ttl=1)] at time 0, [get("a")] returns 1 at once
    and still at time 1, the expiry time itself. *)
Lemma DictCache_put_then_get_scenario :
  DictCache._data example_cache !! "a" = Some (PyInt 1, Some (NInt 1))
  ∧ DictCache.get example_cache "a" = (Return (PyInt 1), example_cache)
  ∧ DictCache.get (DictCache.sleep example_cache (NInt 1)) "a"
    = (Return (PyInt 1), DictCache.sleep example_cache (NInt 1)).
Proof.
  destruct (DictCache_put_then_get
              (DictCache.__init__ TestClock.__init__) "a" (PyInt 1) (NInt 1))
    as (_ & _ & Hentry & _ & Hget & _ & _ & _); [reflexivity|].
  split; [exact Hentry|]. split.
  - apply (Hget (NInt 0)). discriminate.
  - apply (Hget (NInt 1)). discriminate.
Defined.

(** C9: on the in-memory backend, [remove_expired] removes exactly the
    entries whose expiry time is strictly before the clock's time: an
    entry with no expiry time, or with one at or after the clock's
    time, stays with its value and expiry time; an entry with an expiry
    time before the clock's time is gone; no entry is added and the
    clock is not touched. *)
Theorem DictCache_remove_expired_exact (self : DictCache.t) :
  let now := TestClock.now (DictCache.clock self) in
  let self' := snd (DictCache.remove_expired self) in
  fst (DictCache.remove_expired self) = Return ()
  ∧ DictCache.clock self' = DictCache.clock self
  ∧ (∀ key value,
       DictCache._data self !! key = Some (value, None) →
       DictCache._data self' !! key = Some (value, None))
  ∧ (∀ key value e,
       DictCache._data self !! key = Some (value, Some e) →
       num_value now <= num_value e →
       DictCache._data self' !! key = Some (value, Some e))
  ∧ (∀ key value e,
       DictCache._data self !! key = Some (value, Some e) →
       num_value e < num_value now →
       DictCache._data self' !! key = None)
  ∧ (∀ key,
       DictCache._data self !! key = None →
       DictCache._data self' !! key = None).
Proof.
  intros now self'. subst now self'.
  split; [done|]. split; [done|].
  repeat split; intros key.
  - intros value Hkey. by rewrite lookup_remove_expired, Hkey.
  - intros value e Hkey Hle. rewrite lookup_remove_expired, Hkey.
    assert (live (Some e) (TestClock.now (DictCache.clock self)) = true) as ->; [|done].
    apply live_true_iff. right. eauto.
  - intros value e Hkey Hlt. rewrite lookup_remove_expired, Hkey.
    assert (live (Some e) (TestClock.now (DictCache.clock self)) = false) as ->; [|done].
    apply live_false_iff. eauto.
  - intros Hkey. by rewrite lookup_remove_expired, Hkey.
Qed.

(** After [put("a", 1, ttl=1)] and [clock.sleep(2)], the sweep empties
    the store; after [clock.sleep(1)] it keeps the entry. *)
Lemma DictCache_remove_expired_scenario :
  DictCache._data
    (snd (DictCache.remove_expired (DictCache.sleep example_cache (NInt 2)))) !! "a"
  = None
  ∧ DictCache._data
      (snd (DictCache.remove_expired (DictCache.sleep example_cache (NInt 1)))) !! "a"
    = Some (PyInt 1, Some (NInt 1)).
Proof.
  split.
  - destruct (DictCache_remove_expired_exact (DictCache.sleep example_cache (NInt 2)))
      as (_ & _ & _ & _ & Hgone & _).
    apply (Hgone "a" (PyInt 1) (NInt 1)); reflexivity.
  - destruct (DictCache_remove_expired_exact (DictCache.sleep example_cache (NInt 1)))
      as (_ & _ & _ & Hkept & _).
    apply (Hkept "a" (PyInt 1) (NInt 1)); [reflexivity | discriminate].
Defined.

(** C10: on the in-memory backend, [data] leaves the cache, expired
    entries included, exactly as it was, and returns the mapping that
    sends [key] to [value] exactly when the store holds [key] with
    [value] and an expiry time that is absent or not before the clock's
    time; on the discarding backend [data] returns the empty mapping
    and leaves the backend as it was. *)
Theorem DictCache_data_read_only (self : DictCache.t) :
  let now := TestClock.now (DictCache.clock self) in
  snd (DictCache.data self) = self
  ∧ (∃ snapshot,
       fst (DictCache.data self) = Return snapshot
       ∧ ∀ key value,
           snapshot !! key = Some value ↔
           ∃ expires_at,
             DictCache._data self !! key = Some (value, expires_at)
             ∧ (expires_at = None
                ∨ ∃ e, expires_at = Some e ∧ num_value now <= num_value e))
  ∧ ∀ c : NoCache.t, NoCache.data c = (Return ∅, c).
Proof.
  intros now. subst now. split; [done|]. split; [|done].
  eexists. split; [done|]. intros key value.
  rewrite lookup_fmap, fmap_Some. split.
  - intros ([v expires_at] & Hf & ->). simpl.
    apply map_lookup_filter_Some in Hf as [Hkey Hlive]. simpl in Hlive.
    exists expires_at. split; [done|]. by apply live_true_iff.
  - intros (expires_at & Hkey & Hlive).
    exists (value, expires_at). split; [|done].
    apply map_lookup_filter_Some. split; [done|]. simpl. by apply live_true_iff.
Qed.

(** With the expired entry of ["a"] in the store, the snapshot is empty
    and the store still holds the entry. *)
Lemma DictCache_data_scenario :
  DictCache.data (DictCache.sleep example_cache (NInt 2))
  = (Return ∅, DictCache.sleep example_cache (NInt 2))
  ∧ DictCache._data (snd (DictCache.data (DictCache.sleep example_cache (NInt 2)))) !! "a"
    = Some (PyInt 1, Some (NInt 1)).
Proof.
  destruct (DictCache_data_read_only (DictCache.sleep example_cache (NInt 2)))
    as (Hsame & _ & _).
  split; [|by rewrite Hsame].
  vm_compute. reflexivity.
Defined.

(** ** The TTL specification *)

Lemma _parse_timedelta_duration (o : pyobj) :
  is_duration o → _parse_timedelta o = Return (Some (seconds_of o)).
Proof. by destruct o. Qed.

Lemma _parse_timedelta_invalid (o : pyobj) :
  ¬ is_duration o → o ≠ PyNone → _parse_timedelta o = Raise ValueError.
Proof. destruct o; simpl; intros Hd Hn; done. Qed.

Lemma _parse_timedelta_cases (o : pyobj) :
  _parse_timedelta o = Return None
  ∨ (∃ q, _parse_timedelta o = Return (Some q))
  ∨ _parse_timedelta o = Raise ValueError.
Proof. destruct o; simpl; eauto. Qed.

(** C5: [_parse_ttl_function] has no branch that a function object
    reaches before the final [else]: configuring a memoizer with a
    function as [ttl] raises [ValueError], and no memoizer is made. *)
Theorem cached_rejects_ttl_function
    (C : Type) (c : C) (km : ReprKeyMaker.t) (qualname : string) :
  _parse_ttl_function (PyFunction qualname) = Raise ValueError
  ∧ cached c km (PyFunction qualname) = Raise ValueError.
Proof. split; reflexivity. Qed.

(** The branch that returns [lambda_call] is never taken. *)
Lemma _parse_ttl_function_never_lambda_call (spec f : pyobj) :
  _parse_ttl_function spec ≠ Return (lambda_call f).
Proof.
  unfold _parse_ttl_function.
  destruct (is_None spec); [done|].
  destruct (isinstance_number spec || isinstance_timedelta spec).
  { by destruct (_parse_timedelta spec). }
  destruct (is_pair spec); [|done].
  by destruct (_parse_timedelta_cases (item spec 0)) as [->|[[q ->]| ->]];
    destruct (_parse_timedelta_cases (item spec 1)) as [->|[[q' ->]| ->]].
Qed.

(** C8: a TTL specification that is not [None], a numeric or
    [timedelta] constant, a pair of durations that are not [None], or a
    function makes [cached] raise [ValueError], so the error comes when
    the memoizer is configured and no wrapper exists to be called; a
    pair that contains [None] is one of these. *)
Theorem cached_rejects_invalid_ttl
    (C : Type) (c : C) (km : ReprKeyMaker.t) (spec : pyobj) :
  ¬ valid_ttl spec →
  cached c km spec = Raise ValueError
  ∧ ∀ ttl_min ttl_max,
      ttl_min = PyNone ∨ ttl_max = PyNone →
      cached c km (PyTuple [ttl_min; ttl_max]) = Raise ValueError.
Proof.
  intros Hinvalid. split.
  - destruct spec as [| | | | |items| |]; simpl in Hinvalid; try done.
    destruct items as [|a [|b [|]]]; try done.
    unfold cached, _parse_ttl_function. simpl.
    destruct (decide (is_duration a)) as [Ha|Ha].
    + rewrite (_parse_timedelta_duration a Ha). simpl.
      destruct (decide (is_duration b)) as [Hb|Hb]; [tauto|].
      destruct b; simpl in Hb; done.
    + destruct a; simpl in Ha; try done.
      simpl. by destruct (_parse_timedelta_cases b) as [->|[[q ->]| ->]].
  - intros ttl_min ttl_max [-> | ->]; unfold cached, _parse_ttl_function; simpl.
    + by destruct (_parse_timedelta_cases ttl_max) as [->|[[q ->]| ->]].
    + by destruct (_parse_timedelta_cases ttl_min) as [->|[[q ->]| ->]].
Qed.

(** [cached(ttl="soon")] and [cached(ttl=(1, None))] raise. *)
Lemma cached_rejects_invalid_ttl_scenario :
  cached (DictCache.__init__ TestClock.__init__) ReprKeyMaker.__init__
    (PyStr "soon") = Raise ValueError
  ∧ cached (DictCache.__init__ TestClock.__init__) ReprKeyMaker.__init__
      (PyTuple [PyInt 1; PyNone]) = Raise ValueError.
Proof.
  destruct (cached_rejects_invalid_ttl DictCache.t
              (DictCache.__init__ TestClock.__init__) ReprKeyMaker.__init__
              (PyStr "soon")) as [Hspec Hpair].
  - intros [].
  - split; [exact Hspec|]. apply Hpair. by right.
Defined.

(** ** The key maker *)

Lemma append_assoc (s1 s2 s3 : string) : (s1 +:+ s2) +:+ s3 = s1 +:+ s2 +:+ s3.
Proof.
  induction s1 as [|c s1 IH]; [done|].
  change (String c ((s1 +:+ s2) +:+ s3) = String c (s1 +:+ s2 +:+ s3)).
  by f_equal.
Qed.

Lemma append_empty_r (s : string) : s +:+ EmptyString = s.
Proof.
  induction s as [|c s IH]; [done|].
  change (String c (s +:+ EmptyString) = String c s). by f_equal.
Qed.

Lemma foldl_joined_tail (sep : string) (rest : list string) (acc : string) :
  foldl (λ acc y, acc +:+ sep +:+ y) acc rest = acc +:+ joined_tail sep rest.
Proof.
  revert acc. induction rest as [|y rest IH]; intros acc.
  - cbn [foldl joined_tail foldr]. by rewrite append_empty_r.
  - cbn [foldl]. rewrite IH. unfold joined_tail. cbn [foldr].
    by rewrite !append_assoc.
Qed.

Lemma comma_separated_cons (x : string) (rest : list string) :
  comma_separated (x :: rest) = x +:+ joined_tail ", " rest.
Proof.
  revert x. induction rest as [|y rest IH]; intros x.
  - simpl. by rewrite append_empty_r.
  - change (comma_separated (x :: y :: rest))
      with (x +:+ ", " +:+ comma_separated (y :: rest)).
    by rewrite IH.
Qed.

Lemma str_join_comma_separated (items : list string) :
  str_join ", " items = comma_separated items.
Proof.
  destruct items as [|x rest]; [done|].
  unfold str_join. by rewrite foldl_joined_tail, comma_separated_cons.
Qed.

Lemma is_method_takes_receiver (fn : function) :
  ReprKeyMaker.is_method fn = true ↔ takes_receiver fn.
Proof.
  unfold ReprKeyMaker.is_method, ReprKeyMaker.argnames, takes_receiver.
  destruct (take (co_argcount fn) (co_varnames fn)) as [|first names]; simpl.
  - split; [done|]. by intros (x & [=] & _).
  - rewrite bool_decide_eq_true, !elem_of_cons, elem_of_nil. split.
    + intros [->|[->|[]]]; eauto.
    + intros (x & [= <-] & [->| ->]); eauto.
Qed.

Lemma keyed_args_is_method (fn : function) (args : list pyobj) :
  (if ReprKeyMaker.is_method fn then drop 1 args else args) = keyed_args fn args.
Proof.
  unfold keyed_args.
  destruct (ReprKeyMaker.is_method fn) eqn:Hm; case_decide as Hr.
  - by destruct args.
  - by apply is_method_takes_receiver in Hm.
  - apply is_method_takes_receiver in Hr. congruence.
  - done.
Qed.

(** C6, as the code has it: for every callable and argument lists, the
    key maker with no hashing configured returns
    [<module>:<qualifiedName>(<items>)], the items joined by a comma
    and a space: first the [repr] of each positional argument in call
    order, then, for each keyword argument in insertion order, the
    [repr] of its name, a colon, a space and the [repr] of its value;
    when the first declared parameter is named [self] or [cls] the
    first positional argument is left out. *)
Theorem ReprKeyMaker_key_format
    (repr : pyobj → string) (fn : function) (args : list pyobj)
    (kwargs : kwargs_t) :
  ReprKeyMaker.__call__ repr ReprKeyMaker.__init__ fn args kwargs
  = colon_key repr fn args kwargs.
Proof.
  unfold ReprKeyMaker.__call__, ReprKeyMaker.repr_all_args, colon_key. simpl.
  by rewrite str_join_comma_separated, keyed_args_is_method.
Qed.

(** C6, as the specification words it, fails on the call [f(5, a=1)]:
    the key is [m:f(5, 'a': 1)], not [m:f(5, a=1)]. *)
Lemma ReprKeyMaker_key_not_equals_sign :
  ReprKeyMaker.__call__ repr_plain ReprKeyMaker.__init__ example_f
    [PyInt 5] [("a", PyInt 1)]
  ≠ spec_key repr_plain example_f [PyInt 5] [("a", PyInt 1)].
Proof. vm_compute. discriminate. Qed.

Example ReprKeyMaker_key_of_call :
  ReprKeyMaker.__call__ repr_plain ReprKeyMaker.__init__ example_f
    [PyInt 5] [("a", PyInt 1)] = "m:f(5, 'a': 1)".
Proof. vm_compute. reflexivity. Qed.

Example ReprKeyMaker_key_of_method_call :
  ReprKeyMaker.__call__ repr_plain ReprKeyMaker.__init__ example_method
    [PyOther "K" "<m.K object>"; PyInt 5; PyStr "x"] [] = "m:K.g(5, 'x')".
Proof. vm_compute. reflexivity. Qed.

(** ** The memoizer *)

(** C2: a memoizer configured with [ttl = None] on the in-memory
    backend stores what it computes: when the key is absent and the
    wrapped function answers [value], [get_or_compute] returns [value]
    and leaves the entry [(value, None)] in the store, and [get] of the
    key returns [value] whatever the clock is moved by afterwards. *)
Theorem ttl_None_stores_forever `{Arith}
    (call_ttl : pyobj → function → list pyobj → kwargs_t → pyobj → outcome pyobj)
    (c : DictCache.t) (km : ReprKeyMaker.t) (m : memoizer DictCache.t)
    (sample : Q) (fn : function) (args : list pyobj) (kwargs : kwargs_t)
    (key : string) (value : pyobj) :
  cached c km PyNone = Return m →
  DictCache._data c !! key = None →
  let r := get_or_compute call_ttl (ttl m) sample fn args kwargs
             (cache m) key (Return value) in
  fst r = Return value
  ∧ DictCache._data (snd r) !! key = Some (value, None)
  ∧ ∀ n, get (DictCache.sleep (snd r) n) key
         = (Return value, DictCache.sleep (snd r) n).
Proof.
  intros [= <-] Hkey r. subst r.
  unfold get_or_compute, lookup_cached. simpl.
  unfold DictCache.get. rewrite Hkey. simpl.
  split; [done|]. split; [by rewrite lookup_insert_eq|].
  intros n. unfold DictCache.get. simpl. by rewrite lookup_insert_eq.
Qed.

(** [cached(cache=DictCache(), ttl=None)] around [f]: after [f(5)] has
    answered [25], [cache.get] answers [25] a thousand seconds later. *)
Lemma ttl_None_stores_forever_scenario :
  let r := get_or_compute (λ _ _ _ _ _, Raise ValueError) lambda_None 0
             example_f [PyInt 5] [] (DictCache.__init__ TestClock.__init__)
             "m:f(5)" (Return (PyInt 25)) in
  get (DictCache.sleep (snd r) (NInt 1000)) "m:f(5)"
  = (Return (PyInt 25), DictCache.sleep (snd r) (NInt 1000)).
Proof.
  destruct (ttl_None_stores_forever (λ _ _ _ _ _, Raise ValueError)
              (DictCache.__init__ TestClock.__init__) ReprKeyMaker.__init__
              {| cache := DictCache.__init__ TestClock.__init__;
                 key_maker := ReprKeyMaker.__init__;
                 ttl := lambda_None; ongoing := ∅ |}
              0 example_f [PyInt 5] [] "m:f(5)" (PyInt 25))
    as (_ & _ & Hget); [reflexivity | reflexivity |].
  exact (Hget (NInt 1000)).
Defined.

(** ** The wrapper on the event loop *)

Section wrapper_properties.
Context {C : Type} `{Cache C}.
Variable call_ttl :
  pyobj → function → list pyobj → kwargs_t → pyobj → outcome pyobj.
Variable repr : pyobj → string.
Variable fn : function.
Variable fn_result : nat → list pyobj → kwargs_t → outcome pyobj.
Variable samples : nat → Q.

Abbreviation step' := (step call_ttl repr fn fn_result samples).
Abbreviation run' := (run call_ttl repr fn fn_result samples).

Lemma step_length_callers (e : event) (s s' : loop) :
  step' e s = Some s' → length (callers s') = length (callers s).
Proof.
  intros Hstep. destruct e as [i|p|p|p|i]; simpl in Hstep.
  - destruct (callers s !! i) as [[args kwargs| |]|]; try done.
    destruct (ongoing (memo s) !! _); injection Hstep as <-; simpl;
      by rewrite length_insert.
  - destruct (tasks s !! p) as [t|]; [|done].
    destruct (state t); try done.
    destruct (lookup_cached _ _) as [[r|] c]; by injection Hstep as <-.
  - destruct (tasks s !! p) as [t|]; [|done].
    destruct (state t); try done.
    destruct (store_computed _ _ _ _ _ _ _ _ _) as [r c].
    by injection Hstep as <-.
  - destruct (tasks s !! p) as [t|]; [|done].
    destruct (state t); try done.
    destruct (popped t); [done|]. by injection Hstep as <-.
  - destruct (callers s !! i) as [[| pending |]|]; try done.
    destruct (state <$> tasks s !! pending) as [[| |r]|]; try done.
    injection Hstep as <-. simpl. by rewrite length_insert.
Qed.

Lemma run_length_callers (schedule : list event) (s s' : loop) :
  run' schedule s = Some s' → length (callers s') = length (callers s).
Proof.
  revert s. induction schedule as [|e schedule IH]; intros s Hrun; simpl in Hrun.
  - by injection Hrun as <-.
  - destruct (step' e s) as [s1|] eqn:Hstep; [|done].
    rewrite (IH _ Hrun). by eapply step_length_callers.
Qed.

Lemma run_app (schedule1 schedule2 : list event) (s : loop) :
  run' (schedule1 ++ schedule2) s = run' schedule1 s ≫= run' schedule2.
Proof.
  revert s. induction schedule1 as [|e schedule1 IH]; intros s; simpl; [done|].
  destruct (step' e s); [apply IH | done].
Qed.

(** *** Schedules that bring every caller to its result *)

Lemma insert_replicate_middle {A} (x y : A) (i : nat) (l : list A) :
  <[i := x]> (replicate i x ++ y :: l) = replicate (S i) x ++ l.
Proof.
  rewrite replicate_S_end, <- app_assoc.
  rewrite insert_app_r_alt by (rewrite length_replicate; lia).
  by rewrite length_replicate, Nat.sub_diag.
Qed.

Lemma lookup_replicate_middle {A} (x y : A) (i : nat) (l : list A) :
  (replicate i x ++ y :: l) !! i = Some y.
Proof.
  rewrite lookup_app_r by (rewrite length_replicate; lia).
  by rewrite length_replicate, Nat.sub_diag.
Qed.

(** The callers from [i] on enter one after the other and find the
    pending task [0] in the table. *)
Lemma run_enter_rest (j i : nat) (s : loop) (args : list pyobj) (kwargs : kwargs_t) :
  callers s = replicate i (Awaiting 0) ++ replicate j (Invoked args kwargs) →
  ongoing (memo s)
    !! ReprKeyMaker.__call__ repr (key_maker (memo s)) fn args kwargs = Some 0%nat →
  run' (Enter <$> seq i j) s
  = Some {| memo := memo s; tasks := tasks s; executions := executions s;
            callers := replicate (i + j) (Awaiting 0) |}.
Proof.
  revert i s. induction j as [|j IH]; intros i s Hcs Ho; simpl.
  - destruct s. simpl in *. subst. by rewrite app_nil_r, Nat.add_0_r.
  - simpl in Hcs. rewrite Hcs, lookup_replicate_middle, Ho.
    rewrite insert_replicate_middle, IH; simpl; [|done..].
    by rewrite Nat.add_succ_r.
Qed.

(** The callers from [i] on resume one after the other with the result
    of task [0]. *)
Lemma run_resume_rest (j i : nat) (s : loop) (t : task) (r : outcome pyobj) :
  callers s = replicate i (Returned r) ++ replicate j (Awaiting 0) →
  tasks s !! 0%nat = Some t → state t = Done r →
  run' (Resume <$> seq i j) s
  = Some {| memo := memo s; tasks := tasks s; executions := executions s;
            callers := replicate (i + j) (Returned r) |}.
Proof.
  revert i s. induction j as [|j IH]; intros i s Hcs Ht Hst; simpl.
  - destruct s. simpl in *. subst. by rewrite app_nil_r, Nat.add_0_r.
  - simpl in Hcs. rewrite Hcs, lookup_replicate_middle, Ht. simpl. rewrite Hst.
    rewrite insert_replicate_middle, (IH _ _ ); simpl; [|done..].
    by rewrite Nat.add_succ_r.
Qed.

(** All of [S n] calls enter: the first makes the task, the others
    find it. *)
Lemma run_enter_all (n : nat) (m : memoizer C) (args : list pyobj) (kwargs : kwargs_t) :
  let key := ReprKeyMaker.__call__ repr (key_maker m) fn args kwargs in
  ongoing m !! key = None →
  run' (Enter <$> seq 0 (S n)) (invoke m (replicate (S n) (args, kwargs)))
  = Some {| memo := set_ongoing m (<[key := 0%nat]> (ongoing m));
            tasks := [{| task_key := key; task_args := args;
                         task_kwargs := kwargs; state := Created;
                         popped := false |}];
            executions := 0;
            callers := replicate (S n) (Awaiting 0) |}.
Proof.
  intros key Ho. subst key. simpl. rewrite Ho. simpl.
  rewrite fmap_replicate. simpl.
  rewrite (run_enter_rest n 1 _ args kwargs); simpl; [done|done|].
  by rewrite lookup_insert_eq.
Qed.

(** *** When the cache answers *)

Section answered.
Variable c0 : C.
Variable km : ReprKeyMaker.t.
Variable key : string.
Variable answer : pyobj.
Hypothesis get_answers : get c0 key = (Return answer, c0).

Local Abbreviation task_answered := (task_answered key answer).
Local Abbreviation caller_answered := (caller_answered repr fn km key answer).
Local Abbreviation all_answered := (all_answered repr fn c0 km key answer).

Lemma step_all_answered (e : event) (s s' : loop) :
  all_answered s → step' e s = Some s' → all_answered s'.
Proof.
  intros (Hc & Hkm & Hex & Htasks & Hcallers) Hstep.
  destruct e as [i|p|p|p|i]; simpl in Hstep.
  - destruct (callers s !! i) as [[args kwargs| |]|] eqn:Hi; try done.
    assert (ReprKeyMaker.__call__ repr (key_maker (memo s)) fn args kwargs = key)
      as Hkey.
    { rewrite Hkm. exact (proj1 (Forall_lookup _ _) Hcallers _ _ Hi). }
    rewrite Hkey in Hstep.
    destruct (ongoing (memo s) !! key) as [pending|];
      injection Hstep as <-; repeat split; simpl; try done.
    + by apply Forall_insert.
    + apply Forall_app. split; [done|]. apply Forall_singleton.
      split; simpl; eauto.
    + by apply Forall_insert.
  - destruct (tasks s !! p) as [t|] eqn:Hp; [|done].
    destruct (proj1 (Forall_lookup _ _) Htasks _ _ Hp) as [Htk Hst].
    destruct (state t) eqn:Hstate; try done.
    unfold lookup_cached in Hstep. rewrite Hc, Htk, get_answers in Hstep.
    injection Hstep as <-. repeat split; simpl; try done.
    apply Forall_insert; [done|]. split; simpl; eauto.
  - destruct (tasks s !! p) as [t|] eqn:Hp; [|done].
    destruct (proj1 (Forall_lookup _ _) Htasks _ _ Hp) as [Htk [Hst|Hst]];
      rewrite Hst in Hstep; done.
  - destruct (tasks s !! p) as [t|] eqn:Hp; [|done].
    destruct (proj1 (Forall_lookup _ _) Htasks _ _ Hp) as [Htk Hst].
    destruct (state t) eqn:Hstate; try done.
    destruct (popped t); [done|].
    injection Hstep as <-. repeat split; simpl; try done.
    apply Forall_insert; [done|]. split; simpl; [done|]. by rewrite Hstate.
  - destruct (callers s !! i) as [[| pending |]|] eqn:Hi; try done.
    destruct (tasks s !! pending) as [t|] eqn:Hp; simpl in Hstep; [|done].
    destruct (proj1 (Forall_lookup _ _) Htasks _ _ Hp) as [Htk Hst].
    destruct (state t) eqn:Hstate; try done.
    injection Hstep as <-. repeat split; simpl; try done.
    apply Forall_insert; [done|]. simpl. by destruct Hst as [?|[= ->]].
Qed.

Lemma run_all_answered (schedule : list event) (s s' : loop) :
  all_answered s → run' schedule s = Some s' → all_answered s'.
Proof.
  revert s. induction schedule as [|e schedule IH]; intros s Hs Hrun; simpl in Hrun.
  - by injection Hrun as <-.
  - destruct (step' e s) as [s1|] eqn:Hstep; [|done].
    eapply IH; [|done]. by eapply step_all_answered.
Qed.

(** Whenever [cache.get] answers for the key and leaves the cache as it
    was, no schedule of the callers of that key executes the wrapped
    function, and every caller that returns has the cache's answer. *)
Lemma answered_no_execution
    (policy : ttl_function) (table : gmap string nat)
    (calls : list (list pyobj * kwargs_t)) (schedule : list event) (s : loop) :
  Forall (λ call, ReprKeyMaker.__call__ repr km fn (fst call) (snd call) = key) calls →
  run' schedule
    (invoke {| cache := c0; key_maker := km; ttl := policy; ongoing := table |} calls)
  = Some s →
  executions s = 0%nat
  ∧ ∀ i result, callers s !! i = Some (Returned result) → result = Return answer.
Proof.
  intros Hcalls Hrun.
  eapply run_all_answered in Hrun as (_ & _ & Hex & _ & Hcallers).
  - split; [done|]. intros i result Hi.
    exact (proj1 (Forall_lookup _ _) Hcallers _ _ Hi).
  - repeat split; simpl; try done.
    apply Forall_fmap. eapply Forall_impl; [exact Hcalls|]. by intros [??].
Qed.

(** A schedule under which every caller returns: all enter, the task
    starts and is answered by the cache, its callback runs, all
    resume. *)
Lemma answered_all_return
    (n : nat) (policy : ttl_function) (args : list pyobj) (kwargs : kwargs_t) :
  ReprKeyMaker.__call__ repr km fn args kwargs = key →
  ∃ s,
    run' ((Enter <$> seq 0 (S n)) ++ [Start 0; Callback 0]
          ++ (Resume <$> seq 0 (S n)))
      (invoke {| cache := c0; key_maker := km; ttl := policy; ongoing := ∅ |}
              (replicate (S n) (args, kwargs))) = Some s
    ∧ callers s = replicate (S n) (Returned (Return answer))
    ∧ executions s = 0%nat.
Proof.
  intros Hkey. eexists. split; [|split].
  - rewrite run_app, run_enter_all by done.
    cbn [mbind option_bind app run step tasks lookup list_lookup state memo
         cache set_ongoing task_key key_maker].
    rewrite Hkey. unfold lookup_cached. rewrite get_answers.
    cbn [tasks lookup list_lookup state set_state popped insert list_insert
         memo set_cache ongoing task_key executions callers].
    eapply (run_resume_rest (S n) 0); [done|done|done].
  - done.
  - done.
Qed.

End answered.


(** *** When the cache misses: one execution for all callers *)

Section missed.
Variable c0 : C.
Variable km : ReprKeyMaker.t.
Variable policy : ttl_function.
Variable key : string.
Variable args : list pyobj.
Variable kwargs : kwargs_t.
Hypothesis key_of_call : ReprKeyMaker.__call__ repr km fn args kwargs = key.
Hypothesis get_misses : fst (lookup_cached c0 key) = None.

Local Abbreviation first_result :=
  (first_result call_ttl fn fn_result samples policy key args kwargs).
Local Abbreviation task_progress :=
  (task_progress call_ttl fn fn_result samples c0 policy key args kwargs).
Local Abbreviation only_task :=
  (only_task call_ttl fn fn_result samples c0 policy key args kwargs).
Local Abbreviation caller_of := (caller_of args kwargs).
Local Abbreviation gathering :=
  (gathering call_ttl fn fn_result samples c0 km policy key args kwargs).
Local Abbreviation in_flight :=
  (in_flight call_ttl fn fn_result samples c0 km policy key args kwargs).

Lemma only_task_lookup (ts : list task) (t t' : task) (p : nat) :
  ts = [t] → ts !! p = Some t' → p = 0%nat ∧ t' = t.
Proof.
  intros -> Hp. destruct p as [|p]; simpl in Hp; [|done].
  by injection Hp as <-.
Qed.

Lemma caller_of_state (t t' : task) (b : bool) (c : caller) :
  (∀ r, state t = Done r → state t' = Done r) →
  caller_of t b c → caller_of t' b c.
Proof. intros Hst. destruct c; simpl; eauto. Qed.

Lemma step_gathering (e : event) (s s' : loop) :
  is_Callback e = false → gathering s → step' e s = Some s' → gathering s'.
Proof.
  intros He (Hkm & Hpol & Hs) Hstep.
  destruct e as [i|p|p|p|i]; simpl in Hstep; [| | |done|].
  - (* Enter *)
    destruct (callers s !! i) as [[a kw| |]|] eqn:Hi; try done.
    assert (a = args ∧ kw = kwargs) as [-> ->].
    { destruct Hs as [(_ & _ & _ & _ & Hcs)|(t & _ & _ & _ & Hcs)].
      - by injection (proj1 (Forall_lookup _ _) Hcs _ _ Hi) as -> ->.
      - by destruct (proj1 (Forall_lookup _ _) Hcs _ _ Hi) as (_ & -> & ->). }
    rewrite Hkm, key_of_call in Hstep.
    destruct Hs as [(Hts & Ho & Hex & Hc & Hcs)|(t & Ht & Hpop & Ho & Hcs)];
      rewrite Ho in Hstep; [rewrite Hts in Hstep|]; injection Hstep as <-;
      (split; [done|]); (split; [done|]); right; simpl.
    + eexists. split; [|split; [|split]].
      * by do 4 (split; [done|]).
      * done.
      * by rewrite lookup_insert_eq.
      * apply Forall_insert; [|done].
        eapply Forall_impl; [exact Hcs|]. by intros c ->.
    + exists t. split; [done|]. split; [done|]. split; [done|].
      by apply Forall_insert.
  - (* Start *)
    destruct (tasks s !! p) as [t'|] eqn:Hp; [|done].
    destruct Hs as [(Hts & _)|(t & (Hts & Htk & Hta & Htkw & Hprog) & Hpop & Ho & Hcs)].
    { by rewrite Hts in Hp. }
    destruct (only_task_lookup _ _ _ _ Hts Hp) as [-> ->].
    unfold task_progress in Hprog.
    destruct (state t) eqn:Hstate; try done.
    destruct Hprog as [Hex Hc]. rewrite Hc, Htk in Hstep.
    destruct (lookup_cached c0 key) as [[r|] c]; simpl in get_misses; [done|].
    injection Hstep as <-. split; [done|]. split; [done|]. right.
    exists (set_state t (Calling (executions s))). simpl.
    split; [|split; [done|split; [done|]]].
    + rewrite Hts. do 4 (split; [done|]).
      unfold task_progress. simpl. by rewrite Hex.
    + eapply Forall_impl; [exact Hcs|]. intros c'.
      apply caller_of_state. by rewrite Hstate.
  - (* Finish *)
    destruct (tasks s !! p) as [t'|] eqn:Hp; [|done].
    destruct Hs as [(Hts & _)|(t & (Hts & Htk & Hta & Htkw & Hprog) & Hpop & Ho & Hcs)].
    { by rewrite Hts in Hp. }
    destruct (only_task_lookup _ _ _ _ Hts Hp) as [-> ->].
    unfold task_progress in Hprog.
    destruct (state t) as [|n|] eqn:Hstate; try done.
    destruct Hprog as [-> Hex]. rewrite Hpol, Hta, Htkw, Htk in Hstep.
    destruct (store_computed call_ttl policy (samples 0%nat) fn args kwargs
                (cache (memo s)) key (fn_result 0%nat args kwargs))
      as [r c] eqn:Hr.
    injection Hstep as <-. split; [done|]. split; [done|]. right.
    exists (set_state t (Done r)). simpl.
    split; [|split; [done|split; [done|]]].
    + rewrite Hts. do 4 (split; [done|]).
      unfold task_progress. simpl. split; [done|].
      exists (cache (memo s)). unfold first_result. by rewrite Hr.
    + eapply Forall_impl; [exact Hcs|]. intros c'.
      apply caller_of_state. by rewrite Hstate.
  - (* Resume *)
    destruct (callers s !! i) as [[| pending |]|] eqn:Hi; try done.
    destruct (tasks s !! pending) as [t'|] eqn:Hp; simpl in Hstep; [|done].
    destruct Hs as [(Hts & _)|(t & Ht & Hpop & Ho & Hcs)].
    { by rewrite Hts in Hp. }
    destruct (only_task_lookup _ _ _ _ (proj1 Ht) Hp) as [-> ->].
    destruct (state t) eqn:Hstate; try done.
    injection Hstep as <-. split; [done|]. split; [done|]. right.
    exists t. split; [done|]. split; [done|]. split; [done|].
    by apply Forall_insert.
Qed.

Lemma step_in_flight (e : event) (s s' : loop) :
  in_flight s → step' e s = Some s' → in_flight s'.
Proof.
  intros (Hkm & Hpol & t & (Hts & Htk & Hta & Htkw & Hprog) & Hcs) Hstep.
  destruct e as [i|p|p|p|i]; simpl in Hstep.
  - (* Enter *)
    destruct (callers s !! i) as [[a kw| |]|] eqn:Hi; try done.
    by destruct (proj1 (Forall_lookup _ _) Hcs _ _ Hi) as ([=] & _).
  - (* Start *)
    destruct (tasks s !! p) as [t'|] eqn:Hp; [|done].
    destruct (only_task_lookup _ _ _ _ Hts Hp) as [-> ->].
    unfold task_progress in Hprog.
    destruct (state t) eqn:Hstate; try done.
    destruct Hprog as [Hex Hc]. rewrite Hc, Htk in Hstep.
    destruct (lookup_cached c0 key) as [[r|] c]; simpl in get_misses; [done|].
    injection Hstep as <-. split; [done|]. split; [done|].
    exists (set_state t (Calling (executions s))). simpl. split.
    + rewrite Hts. do 4 (split; [done|]).
      unfold task_progress. simpl. by rewrite Hex.
    + eapply Forall_impl; [exact Hcs|]. intros c'.
      apply caller_of_state. by rewrite Hstate.
  - (* Finish *)
    destruct (tasks s !! p) as [t'|] eqn:Hp; [|done].
    destruct (only_task_lookup _ _ _ _ Hts Hp) as [-> ->].
    unfold task_progress in Hprog.
    destruct (state t) as [|n|] eqn:Hstate; try done.
    destruct Hprog as [-> Hex]. rewrite Hpol, Hta, Htkw, Htk in Hstep.
    destruct (store_computed call_ttl policy (samples 0%nat) fn args kwargs
                (cache (memo s)) key (fn_result 0%nat args kwargs))
      as [r c] eqn:Hr.
    injection Hstep as <-. split; [done|]. split; [done|].
    exists (set_state t (Done r)). simpl. split.
    + rewrite Hts. do 4 (split; [done|]).
      unfold task_progress. simpl. split; [done|].
      exists (cache (memo s)). unfold first_result. by rewrite Hr.
    + eapply Forall_impl; [exact Hcs|]. intros c'.
      apply caller_of_state. by rewrite Hstate.
  - (* Callback *)
    destruct (tasks s !! p) as [t'|] eqn:Hp; [|done].
    destruct (only_task_lookup _ _ _ _ Hts Hp) as [-> ->].
    destruct (state t) eqn:Hstate; try done.
    destruct (popped t); [done|].
    injection Hstep as <-. split; [done|]. split; [done|].
    exists (set_popped t). simpl. split.
    + rewrite Hts. do 4 (split; [done|]).
      unfold task_progress in *. simpl. by rewrite Hstate in *.
    + eapply Forall_impl; [exact Hcs|]. intros c'. by apply caller_of_state.
  - (* Resume *)
    destruct (callers s !! i) as [[| pending |]|] eqn:Hi; try done.
    destruct (tasks s !! pending) as [t'|] eqn:Hp; simpl in Hstep; [|done].
    destruct (only_task_lookup _ _ _ _ Hts Hp) as [-> ->].
    destruct (state t) eqn:Hstate; try done.
    injection Hstep as <-. split; [done|]. split; [done|].
    exists t. split; [done|]. by apply Forall_insert.
Qed.

Lemma run_gathering (schedule : list event) (s s' : loop) :
  forallb (λ e, negb (is_Callback e)) schedule = true →
  gathering s → run' schedule s = Some s' → gathering s'.
Proof.
  revert s. induction schedule as [|e schedule IH]; intros s Hsch Hs Hrun;
    simpl in Hrun, Hsch.
  - by injection Hrun as <-.
  - apply andb_prop in Hsch as [He Hsch]. apply negb_true_iff in He.
    destruct (step' e s) as [s1|] eqn:Hstep; [|done].
    eapply IH; [done| |done]. by eapply step_gathering.
Qed.

Lemma run_in_flight (schedule : list event) (s s' : loop) :
  in_flight s → run' schedule s = Some s' → in_flight s'.
Proof.
  revert s. induction schedule as [|e schedule IH]; intros s Hs Hrun; simpl in Hrun.
  - by injection Hrun as <-.
  - destruct (step' e s) as [s1|] eqn:Hstep; [|done].
    eapply IH; [|done]. by eapply step_in_flight.
Qed.

Lemma gathering_in_flight (s : loop) :
  gathering s → callers s ≠ [] →
  forallb has_entered (callers s) = true → in_flight s.
Proof.
  intros (Hkm & Hpol & [(_ & _ & _ & _ & Hcs)|(t & Ht & _ & _ & Hcs)]) Hne Hin.
  - destruct (callers s) as [|c cs]; [done|].
    apply Forall_cons in Hcs as [-> _]. done.
  - split; [done|]. split; [done|]. exists t. split; [done|].
    rewrite forallb_forall in Hin. apply Forall_forall. intros c Hc.
    rewrite Forall_forall in Hcs. specialize (Hcs c Hc).
    apply list_elem_of_In, Hin in Hc. by destruct c.
Qed.

(** Single flight: let [n ≥ 1] calls with the same arguments be made on
    a fresh wrapper while [cache.get] of their key raises [KeyError],
    and let all of them enter before any done-callback runs. Then,
    however the loop schedules them (before, [schedule1], and after,
    [schedule2]), a caller that has returned has the result of the
    first and only execution of [fn], and any two callers that have
    returned have the same result. *)
Lemma single_flight_on_miss
    (n : nat) (schedule1 schedule2 : list event) (s1 s2 : loop) :
  (0 < n)%nat →
  forallb (λ e, negb (is_Callback e)) schedule1 = true →
  run' schedule1
    (invoke {| cache := c0; key_maker := km; ttl := policy; ongoing := ∅ |}
            (replicate n (args, kwargs))) = Some s1 →
  forallb has_entered (callers s1) = true →
  run' schedule2 s1 = Some s2 →
  (∀ i r, callers s2 !! i = Some (Returned r) →
     executions s2 = 1%nat ∧ ∃ c, r = first_result c)
  ∧ (∀ i j r r', callers s2 !! i = Some (Returned r) →
       callers s2 !! j = Some (Returned r') → r = r').
Proof.
  intros Hn Hsch Hrun1 Hin Hrun2.
  assert (gathering s1) as Hg.
  { eapply run_gathering; [done| |done].
    split; [done|]. split; [done|]. left. simpl.
    do 4 (split; [done|]).
    apply Forall_fmap, Forall_replicate. done. }
  assert (in_flight s2) as (_ & _ & t & (_ & _ & _ & _ & Hprog) & Hcs).
  { eapply run_in_flight; [|done]. apply gathering_in_flight; [done| |done].
    intros Hnil. apply run_length_callers in Hrun1.
    rewrite Hnil in Hrun1. simpl in Hrun1.
    rewrite length_fmap, length_replicate in Hrun1. lia. }
  split.
  - intros i r Hi. pose proof (proj1 (Forall_lookup _ _) Hcs _ _ Hi) as Hst.
    simpl in Hst. unfold task_progress in Hprog. by rewrite Hst in Hprog.
  - intros i j r r' Hi Hj.
    pose proof (proj1 (Forall_lookup _ _) Hcs _ _ Hi) as Hst.
    pose proof (proj1 (Forall_lookup _ _) Hcs _ _ Hj) as Hst'.
    simpl in Hst, Hst'. congruence.
Qed.

(** X23: for every backend, when [cache.get] raises [KeyError] for the
    key of [n + 1] calls with the same arguments, there is a schedule
    under which every caller returns: all enter, the task starts and
    calls [fn], [fn] answers, the callback runs, all resume. There is
    one execution and every caller has its result. *)
Lemma single_flight_all_return (n : nat) :
  ∃ s,
    run' ((Enter <$> seq 0 (S n)) ++ [Start 0; Finish 0; Callback 0]
          ++ (Resume <$> seq 0 (S n)))
      (invoke {| cache := c0; key_maker := km; ttl := policy; ongoing := ∅ |}
              (replicate (S n) (args, kwargs))) = Some s
    ∧ callers s
      = replicate (S n) (Returned (first_result (snd (lookup_cached c0 key))))
    ∧ executions s = 1%nat.
Proof.
  unfold first_result.
  destruct (lookup_cached c0 key) as [[r|] c1] eqn:Hlookup;
    simpl in get_misses; [done|].
  cbn [snd].
  destruct (store_computed call_ttl policy (samples 0%nat) fn args kwargs c1 key
              (fn_result 0%nat args kwargs)) as [r c2] eqn:Hr.
  eexists. split; [|split].
  - rewrite run_app, run_enter_all by done.
    remember (Resume <$> seq 0 (S n)) as resumes eqn:Hresumes.
    simpl. rewrite key_of_call, Hlookup. simpl. rewrite Hr. simpl.
    subst resumes. eapply (run_resume_rest (S n) 0); [done|done|done].
  - done.
  - done.
Qed.

End missed.



End wrapper_properties.

(** C3: on the in-memory backend, when the store holds the key of the
    calls with an expiry time strictly before the clock's time (so no
    cached value exists for the key), [n + 1] concurrent calls with the
    same arguments execute the wrapped function not once but never:
    under every schedule the count of executions stays at zero and a
    caller that returns receives [None], which [get] answered in place
    of raising [KeyError]; and there is a schedule under which all the
    callers return. *)
Theorem expired_entry_skips_execution `{Arith}
    (call_ttl : pyobj → function → list pyobj → kwargs_t → pyobj → outcome pyobj)
    (repr : pyobj → string) (fn : function)
    (fn_result : nat → list pyobj → kwargs_t → outcome pyobj)
    (samples : nat → Q)
    (c0 : DictCache.t) (km : ReprKeyMaker.t) (policy : ttl_function)
    (key : string) (value : pyobj) (e : number)
    (n : nat) (args : list pyobj) (kwargs : kwargs_t) :
  DictCache._data c0 !! key = Some (value, Some e) →
  num_value e < num_value (TestClock.now (DictCache.clock c0)) →
  ReprKeyMaker.__call__ repr km fn args kwargs = key →
  let start :=
    invoke {| cache := c0; key_maker := km; ttl := policy; ongoing := ∅ |}
           (replicate (S n) (args, kwargs)) in
  (∀ schedule s,
     run call_ttl repr fn fn_result samples schedule start = Some s →
     executions s = 0%nat
     ∧ ∀ i result, callers s !! i = Some (Returned result) →
                   result = Return PyNone)
  ∧ ∃ schedule s,
      run call_ttl repr fn fn_result samples schedule start = Some s
      ∧ callers s = replicate (S n) (Returned (Return PyNone))
      ∧ executions s = 0%nat.
Proof.
  intros Hkey Hlt Hcall start. subst start.
  pose proof (get_falls_through c0 key value e Hkey Hlt) as Hget.
  split.
  - intros schedule s Hrun.
    eapply answered_no_execution; [exact Hget| |exact Hrun].
    by apply Forall_replicate.
  - eexists. by eapply answered_all_return.
Qed.

(** Two concurrent calls [f(5)] over the stale entry: both enter, the
    one task runs, its callback runs, both callers resume. *)
Lemma expired_entry_skips_execution_scenario :
  ∃ s,
    run (λ _ _ _ _ _, Raise ValueError) repr_plain example_f
      (λ _ _ _, Return (PyInt 25)) (λ _, 0)
      [Enter 0; Enter 1; Start 0; Callback 0; Resume 0; Resume 1]
      (invoke {| cache := example_stale; key_maker := ReprKeyMaker.__init__;
                 ttl := lambda_constant (Some (NInt 1)); ongoing := ∅ |}
              (replicate 2 ([PyInt 5], []))) = Some s
    ∧ callers s = [Returned (Return PyNone); Returned (Return PyNone)]
    ∧ executions s = 0%nat.
Proof.
  eexists. split; [vm_compute; reflexivity|]. split; [reflexivity|].
  refine (proj1 (proj1 (expired_entry_skips_execution
                   (λ _ _ _ _ _, Raise ValueError) repr_plain example_f
                   (λ _ _ _, Return (PyInt 25)) (λ _, 0)
                   example_stale ReprKeyMaker.__init__ (lambda_constant (Some (NInt 1)))
                   "m:f(5)" (PyInt 25) (NInt 1) 1 [PyInt 5] [] _ _ _)
                   [Enter 0; Enter 1; Start 0; Callback 0; Resume 0; Resume 1]
                   _ _)).
  - reflexivity.
  - reflexivity.
  - vm_compute. reflexivity.
  - vm_compute. reflexivity.
Defined.

(** On the in-memory backend a task that has called [fn] ends with
    what [fn] answered, value or failure: the TTL functions that
    [_parse_ttl_function] returns do not raise, nor does [put]. *)
Lemma store_computed_DictCache `{Arith}
    (call_ttl : pyobj → function → list pyobj → kwargs_t → pyobj → outcome pyobj)
    (spec : pyobj) (policy : ttl_function) (sample : Q) (fn : function)
    (args : list pyobj) (kwargs : kwargs_t) (c : DictCache.t) (key : string)
    (computed : outcome pyobj) :
  _parse_ttl_function spec = Return policy →
  fst (store_computed call_ttl policy sample fn args kwargs c key computed)
  = computed.
Proof.
  intros Hspec. destruct computed as [value|e]; [|done].
  destruct policy as [| | |f]; try done.
  by destruct (_parse_ttl_function_never_lambda_call spec f).
Qed.

(** X18: single flight on the in-memory backend: [n + 1] calls with the
    same arguments, their key absent from the store, all entered before
    any done-callback runs. Under every such schedule a caller that has
    returned has the answer, value or failure, of the first execution
    of [fn], and there has been one execution. *)
Lemma single_flight_absent_key `{Arith}
    (call_ttl : pyobj → function → list pyobj → kwargs_t → pyobj → outcome pyobj)
    (repr : pyobj → string) (fn : function)
    (fn_result : nat → list pyobj → kwargs_t → outcome pyobj)
    (samples : nat → Q)
    (c0 : DictCache.t) (km : ReprKeyMaker.t) (spec : pyobj)
    (policy : ttl_function) (key : string)
    (n : nat) (args : list pyobj) (kwargs : kwargs_t)
    (schedule1 schedule2 : list event) (s1 s2 : loop) :
  _parse_ttl_function spec = Return policy →
  DictCache._data c0 !! key = None →
  ReprKeyMaker.__call__ repr km fn args kwargs = key →
  forallb (λ e, negb (is_Callback e)) schedule1 = true →
  run call_ttl repr fn fn_result samples schedule1
    (invoke {| cache := c0; key_maker := km; ttl := policy; ongoing := ∅ |}
            (replicate (S n) (args, kwargs))) = Some s1 →
  forallb has_entered (callers s1) = true →
  run call_ttl repr fn fn_result samples schedule2 s1 = Some s2 →
  ∀ i r, callers s2 !! i = Some (Returned r) →
         executions s2 = 1%nat ∧ r = fn_result 0%nat args kwargs.
Proof.
  intros Hspec Hkey Hcall Hsch Hrun1 Hin Hrun2 i r Hi.
  destruct (single_flight_on_miss call_ttl repr fn fn_result samples
              c0 km policy key args kwargs Hcall) with
    (n := S n) (schedule1 := schedule1) (schedule2 := schedule2)
    (s1 := s1) (s2 := s2) as [Hone _]; try done; [|lia|].
  - unfold lookup_cached. simpl. unfold DictCache.get. by rewrite Hkey.
  - destruct (Hone i r Hi) as (Hex & c & ->). split; [done|].
    by eapply store_computed_DictCache.
Qed.

(** Three concurrent calls [f(5)] on an empty in-memory cache: one
    execution, and the three callers receive its value. *)
Example single_flight_three_callers :
  ∃ s,
    run (λ _ _ _ _ _, Raise ValueError) repr_plain example_f
      (λ _ _ _, Return (PyInt 25)) (λ _, 0)
      [Enter 0; Enter 1; Start 0; Enter 2; Finish 0; Callback 0;
       Resume 2; Resume 0; Resume 1]
      (invoke {| cache := DictCache.__init__ TestClock.__init__;
                 key_maker := ReprKeyMaker.__init__;
                 ttl := lambda_constant (Some (NInt 1)); ongoing := ∅ |}
              (replicate 3 ([PyInt 5], []))) = Some s
    ∧ callers s = replicate 3 (Returned (Return (PyInt 25)))
    ∧ executions s = 1%nat
    ∧ ongoing (memo s) = ∅.
Proof. eexists. split; [vm_compute; reflexivity|]. by vm_compute. Qed.

(** * Further properties *)

(** ** The backends *)

(** X1: on the in-memory backend [getOrDefault] never raises and leaves
    the cache as it was; it returns the default for an absent key, the
    stored value for a live entry, and [None], not the default, for an
    expired entry. On the discarding backend it returns the default. *)
Theorem DictCache_getOrDefault_cases `{Arith}
    (self : DictCache.t) (key : string) (default : pyobj) :
  let now := TestClock.now (DictCache.clock self) in
  snd (getOrDefault self key default) = self
  ∧ (DictCache._data self !! key = None →
     fst (getOrDefault self key default) = Return default)
  ∧ (∀ value expires_at,
       DictCache._data self !! key = Some (value, expires_at) →
       live expires_at now = true →
       fst (getOrDefault self key default) = Return value)
  ∧ (∀ value e,
       DictCache._data self !! key = Some (value, Some e) →
       num_value e < num_value now →
       fst (getOrDefault self key default) = Return PyNone)
  ∧ ∀ c : NoCache.t, getOrDefault c key default = (Return default, c).
Proof.
  intros now. subst now. unfold getOrDefault. simpl. unfold DictCache.get.
  split; [|split; [|split; [|split]]].
  - destruct (DictCache._data self !! key) as [[value expires_at]|]; [|done].
    by destruct (live expires_at _).
  - by intros ->.
  - intros value expires_at -> Hlive. by rewrite Hlive.
  - intros value e Hkey Hlt. rewrite Hkey.
    assert (live (Some e) (TestClock.now (DictCache.clock self)) = false) as ->; [|done].
    apply live_false_iff. eauto.
  - done.
Qed.

(** [getOrDefault("a", 7)] two seconds after [put("a", 1, ttl=1)]
    answers [None]; [getOrDefault("b", 7)] answers 7. *)
Lemma DictCache_getOrDefault_scenario :
  fst (getOrDefault (DictCache.sleep example_cache (NInt 2)) "a" (PyInt 7))
  = Return PyNone
  ∧ fst (getOrDefault (DictCache.sleep example_cache (NInt 2)) "b" (PyInt 7))
    = Return (PyInt 7).
Proof.
  destruct (DictCache_getOrDefault_cases (DictCache.sleep example_cache (NInt 2))
              "a" (PyInt 7)) as (_ & _ & _ & Hexpired & _).
  split; [|reflexivity].
  apply (Hexpired (PyInt 1) (NInt 1)); reflexivity.
Defined.

(** X2: on the in-memory backend an entry put without a TTL never
    expires: [get] returns its value however the clock is moved
    afterwards. *)
Theorem DictCache_put_without_ttl_never_expires `{Arith}
    (self : DictCache.t) (key : string) (value : pyobj) (n : number) :
  let self' := snd (DictCache.put self key value None) in
  DictCache._data self' !! key = Some (value, None)
  ∧ DictCache.get (DictCache.sleep self' n) key
    = (Return value, DictCache.sleep self' n).
Proof.
  simpl. split; [by rewrite lookup_insert_eq|].
  unfold DictCache.get. simpl. by rewrite lookup_insert_eq.
Qed.

(** X3: on the in-memory backend [remove] of a stored key, live or
    expired, returns without failure and deletes the entry: afterwards
    [get] and a second [remove] of that key raise [KeyError], and the
    other keys and the clock are as before. *)
Theorem DictCache_remove_present
    (self : DictCache.t) (key : string) (e : pyobj * option number) :
  DictCache._data self !! key = Some e →
  let self' := snd (DictCache.remove self key) in
  fst (DictCache.remove self key) = Return ()
  ∧ DictCache.get self' key = (Raise (KeyError key), self')
  ∧ DictCache.remove self' key = (Raise (KeyError key), self')
  ∧ DictCache.clock self' = DictCache.clock self
  ∧ ∀ other, other ≠ key →
      DictCache._data self' !! other = DictCache._data self !! other.
Proof.
  intros Hkey self'. subst self'.
  assert (DictCache.remove self key
          = (Return (),
             DictCache.Make (DictCache.clock self)
               (delete key (DictCache._data self)))) as ->.
  { unfold DictCache.remove. by rewrite Hkey. }
  simpl. split; [done|].
  unfold DictCache.get, DictCache.remove. simpl. rewrite lookup_delete_eq.
  do 3 (split; [done|]). intros other Hne. by rewrite lookup_delete_ne.
Qed.

Lemma DictCache_remove_present_scenario :
  fst (DictCache.remove example_cache "a") = Return ()
  ∧ fst (DictCache.get (snd (DictCache.remove example_cache "a")) "a")
    = Raise (KeyError "a").
Proof.
  destruct (DictCache_remove_present example_cache "a" (PyInt 1, Some (NInt 1)))
    as (Hok & Hget & _); [reflexivity|].
  split; [exact Hok|]. by rewrite Hget.
Defined.

(** X4: on the in-memory backend, [put] of an absent key followed by
    [remove] of that key gives back the cache as it was before the
    [put]. *)
Theorem DictCache_put_remove_round_trip `{Arith}
    (self : DictCache.t) (key : string) (value : pyobj) (ttl : option number) :
  DictCache._data self !! key = None →
  DictCache.remove (snd (DictCache.put self key value ttl)) key
  = (Return (), self).
Proof.
  intros Hkey. unfold DictCache.remove. simpl. rewrite lookup_insert_eq.
  rewrite delete_insert_eq, delete_id by done. by destruct self.
Qed.

Lemma DictCache_put_remove_scenario :
  DictCache.remove example_cache "a"
  = (Return (), DictCache.__init__ TestClock.__init__).
Proof.
  apply (DictCache_put_remove_round_trip
           (DictCache.__init__ TestClock.__init__) "a" (PyInt 1)
           (Some (NInt 1))).
  reflexivity.
Defined.

(** X5: on the in-memory backend the sweep changes what [get] answers
    for an expired key: before [remove_expired] the call returns
    [None], after it the call raises [KeyError]; for a live entry
    [get] returns the stored value before and after. *)
Theorem DictCache_get_after_remove_expired (self : DictCache.t) (key : string) :
  let now := TestClock.now (DictCache.clock self) in
  let self' := snd (DictCache.remove_expired self) in
  (∀ value expires_at,
     DictCache._data self !! key = Some (value, expires_at) →
     live expires_at now = true →
     DictCache.get self key = (Return value, self)
     ∧ DictCache.get self' key = (Return value, self'))
  ∧ (∀ value e,
       DictCache._data self !! key = Some (value, Some e) →
       num_value e < num_value now →
       DictCache.get self key = (Return PyNone, self)
       ∧ DictCache.get self' key = (Raise (KeyError key), self')).
Proof.
  intros now self'. subst now self'. split.
  - intros value expires_at Hkey Hlive. unfold DictCache.get.
    rewrite lookup_remove_expired, Hkey, Hlive. simpl. by rewrite Hlive.
  - intros value e Hkey Hlt.
    split; [by eapply get_falls_through|].
    unfold DictCache.get. rewrite lookup_remove_expired, Hkey.
    assert (live (Some e) (TestClock.now (DictCache.clock self)) = false) as ->; [|done].
    apply live_false_iff. eauto.
Qed.

Lemma DictCache_get_after_remove_expired_scenario :
  fst (DictCache.get (DictCache.sleep example_cache (NInt 2)) "a") = Return PyNone
  ∧ fst (DictCache.get
           (snd (DictCache.remove_expired (DictCache.sleep example_cache (NInt 2)))) "a")
    = Raise (KeyError "a").
Proof.
  destruct (DictCache_get_after_remove_expired
              (DictCache.sleep example_cache (NInt 2)) "a") as [_ Hexpired].
  destruct (Hexpired (PyInt 1) (NInt 1)) as [Hbefore Hafter]; [reflexivity..|].
  split; [by rewrite Hbefore | by rewrite Hafter].
Defined.

(** X6: on the in-memory backend a second [remove_expired] at the same
    clock time changes nothing, and the snapshot [data] returns is the
    same before and after a sweep. *)
Theorem DictCache_remove_expired_idempotent (self : DictCache.t) :
  let self' := snd (DictCache.remove_expired self) in
  snd (DictCache.remove_expired self') = self'
  ∧ fst (DictCache.data self') = fst (DictCache.data self).
Proof.
  simpl. split.
  - unfold DictCache.remove_expired. simpl. f_equal.
    apply map_eq. intros key. rewrite !map_lookup_filter.
    destruct (DictCache._data self !! key) as [[value expires_at]|]; simpl; [|done].
    case_guard as Hlive; simpl; [|done]. by rewrite option_guard_True.
  - unfold DictCache.data. simpl. do 2 f_equal.
    apply map_eq. intros key. rewrite !map_lookup_filter.
    destruct (DictCache._data self !! key) as [[value expires_at]|]; simpl; [|done].
    case_guard as Hlive; simpl; [|done]. by rewrite option_guard_True.
Qed.

(** X7: on the in-memory backend the snapshot agrees with [get]: a key
    that the snapshot maps to a value is a key for which [get] returns
    that value, and for a key missing from the snapshot [get] either
    returns [None] (the entry is expired) or raises [KeyError] (there
    is no entry). *)
Theorem DictCache_data_agrees_with_get (self : DictCache.t) :
  ∃ snapshot,
    fst (DictCache.data self) = Return snapshot
    ∧ (∀ key value,
         snapshot !! key = Some value →
         DictCache.get self key = (Return value, self))
    ∧ (∀ key,
         snapshot !! key = None →
         DictCache.get self key = (Return PyNone, self)
         ∨ DictCache.get self key = (Raise (KeyError key), self)).
Proof.
  eexists. split; [done|]. split.
  - intros key value. rewrite lookup_fmap, fmap_Some.
    intros ([v expires_at] & Hf & ->). simpl.
    apply map_lookup_filter_Some in Hf as [Hkey Hlive]. simpl in Hlive.
    unfold DictCache.get. by rewrite Hkey, Hlive.
  - intros key. rewrite lookup_fmap, fmap_None, map_lookup_filter_None.
    unfold DictCache.get.
    intros [->|Hdead]; [by right|].
    destruct (DictCache._data self !! key) as [[value expires_at]|]; [|by right].
    left. specialize (Hdead _ eq_refl). simpl in Hdead.
    by apply not_true_is_false in Hdead as ->.
Qed.

(** X8: on the in-memory backend an expired entry stays expired: once
    its expiry time is before the clock's time, [get] returns [None]
    whenever the clock reads that time or a later one, the store being
    the same. *)
Theorem DictCache_expired_stays_expired
    (self : DictCache.t) (key : string) (value : pyobj) (e : number)
    (later : TestClock.t) :
  DictCache._data self !! key = Some (value, Some e) →
  num_value e < num_value (TestClock.now (DictCache.clock self)) →
  num_value (TestClock.now (DictCache.clock self))
  <= num_value (TestClock.now later) →
  DictCache.get (DictCache.Make later (DictCache._data self)) key
  = (Return PyNone, DictCache.Make later (DictCache._data self)).
Proof.
  intros Hkey Hlt Hle. apply (get_falls_through _ key value e); [done|].
  simpl. lra.
Qed.

(** The entry of ["a"] expired at time 2 is expired at time 7. *)
Lemma DictCache_expired_stays_expired_scenario :
  DictCache.get
    (DictCache.sleep (DictCache.sleep example_cache (NInt 2)) (NInt 5)) "a"
  = (Return PyNone,
     DictCache.sleep (DictCache.sleep example_cache (NInt 2)) (NInt 5)).
Proof.
  apply (DictCache_expired_stays_expired
           (DictCache.sleep example_cache (NInt 2)) "a" (PyInt 1) (NInt 1)
           (TestClock.Make (NInt 7))).
  - reflexivity.
  - reflexivity.
  - discriminate.
Defined.

(** ** The TTL specification and [get_or_compute] *)

(** X9: [_parse_ttl_function] returns a TTL function exactly for
    [None], for a number or a [timedelta], and for a tuple of two
    numbers or [timedelta]s; for every other object it raises
    [ValueError]. *)
Theorem _parse_ttl_function_accepts (spec : pyobj) :
  ((∃ policy, _parse_ttl_function spec = Return policy) ↔
   spec = PyNone ∨ is_duration spec
   ∨ ∃ ttl_min ttl_max,
       spec = PyTuple [ttl_min; ttl_max]
       ∧ is_duration ttl_min ∧ is_duration ttl_max)
  ∧ ((¬ ∃ policy, _parse_ttl_function spec = Return policy) →
     _parse_ttl_function spec = Raise ValueError).
Proof.
  assert (∀ a b, is_duration a → is_duration b →
            _parse_ttl_function (PyTuple [a; b])
            = Return (lambda_uniform (seconds_of a) (seconds_of b))) as Hpair.
  { intros a b Ha Hb. unfold _parse_ttl_function. simpl.
    by rewrite (_parse_timedelta_duration a Ha), (_parse_timedelta_duration b Hb). }
  assert (∀ a b, ¬ (is_duration a ∧ is_duration b) →
            _parse_ttl_function (PyTuple [a; b]) = Raise ValueError) as Hbad.
  { intros a b Hn. unfold _parse_ttl_function. simpl.
    destruct (decide (is_duration a)) as [Ha|Ha].
    - rewrite (_parse_timedelta_duration a Ha). simpl.
      destruct (decide (is_duration b)) as [Hb|Hb]; [tauto|].
      destruct b; simpl in Hb; done.
    - destruct a; simpl in Ha; try done.
      simpl. by destruct (_parse_timedelta_cases b) as [->|[[q ->]| ->]]. }
  split.
  - split.
    + intros [policy Hp].
      destruct spec as [| | | | |items| |]; simpl; eauto; try done.
      destruct items as [|a [|b [|]]]; try done.
      destruct (decide (is_duration a ∧ is_duration b)) as [[Ha Hb]|Hn].
      * right. right. eauto.
      * by rewrite (Hbad a b Hn) in Hp.
    + intros [->|[Hd|(a & b & -> & Ha & Hb)]].
      * by eexists.
      * destruct spec; simpl in Hd; try done; by eexists.
      * eexists. by apply Hpair.
  - intros Hnone.
    destruct spec as [| | | | |items| |]; try done;
      try (destruct Hnone; by eexists).
    destruct items as [|a [|b [|]]]; try done.
    apply Hbad. intros [Ha Hb]. apply Hnone. eexists. by apply Hpair.
Qed.

(** X10: a memoizer configured with a number or a [timedelta] as TTL is
    accepted, and a computation that finds its key absent from the
    in-memory backend returns the computed value and stores it with
    expiry time that TTL, in seconds, plus the clock's time, whatever
    the arguments and the value are. *)
Theorem constant_ttl_stores_with_expiry `{Arith}
    (call_ttl : pyobj → function → list pyobj → kwargs_t → pyobj → outcome pyobj)
    (c : DictCache.t) (km : ReprKeyMaker.t) (spec : pyobj)
    (sample : Q) (fn : function) (args : list pyobj) (kwargs : kwargs_t)
    (key : string) (value : pyobj) :
  is_duration spec →
  DictCache._data c !! key = None →
  ∃ m,
    cached c km spec = Return m
    ∧ let r := get_or_compute call_ttl (ttl m) sample fn args kwargs
                 (cache m) key (Return value) in
      fst r = Return value
      ∧ DictCache._data (snd r) !! key
        = Some (value,
                Some (add (seconds_of spec) (TestClock.now (DictCache.clock c))))
      ∧ DictCache.clock (snd r) = DictCache.clock c.
Proof.
  intros Hd Hkey.
  assert (_parse_ttl_function spec
          = Return (lambda_constant (Some (seconds_of spec)))) as Hp.
  { by destruct spec. }
  eexists. split; [unfold cached; by rewrite Hp|]. simpl.
  unfold get_or_compute, lookup_cached. simpl.
  unfold DictCache.get. rewrite Hkey. simpl.
  split; [done|]. split; [by rewrite lookup_insert_eq | done].
Qed.

(** [cached(ttl=timedelta(minutes=1))]: [f(5)] computed at time 0 is
    stored until time 60. *)
Lemma constant_ttl_scenario :
  ∃ m,
    cached (DictCache.__init__ TestClock.__init__) ReprKeyMaker.__init__
      (PyTimedelta 60) = Return m
    ∧ DictCache._data
        (snd (get_or_compute (λ _ _ _ _ _, Raise ValueError) (ttl m) 0
                example_f [PyInt 5] [] (cache m) "m:f(5)" (Return (PyInt 25))))
        !! "m:f(5)"
      = Some (PyInt 25, Some (NFloat 60)).
Proof.
  destruct (constant_ttl_stores_with_expiry (λ _ _ _ _ _, Raise ValueError)
              (DictCache.__init__ TestClock.__init__) ReprKeyMaker.__init__
              (PyTimedelta 60) 0 example_f [PyInt 5] [] "m:f(5)" (PyInt 25))
    as (m & Hm & _ & Hentry & _); [exact I | reflexivity |].
  exists m. split; [exact Hm | exact Hentry].
Defined.



(** X12: when the in-memory backend holds a live entry for the key,
    [get_or_compute] returns the stored value whatever the wrapped
    function would answer, and leaves the cache, the expiry time of the
    entry included, as it was. *)
Theorem get_or_compute_hit `{Arith}
    (call_ttl : pyobj → function → list pyobj → kwargs_t → pyobj → outcome pyobj)
    (policy : ttl_function) (sample : Q) (fn : function)
    (args : list pyobj) (kwargs : kwargs_t) (c : DictCache.t) (key : string)
    (value : pyobj) (expires_at : option number) (computed : outcome pyobj) :
  DictCache._data c !! key = Some (value, expires_at) →
  live expires_at (TestClock.now (DictCache.clock c)) = true →
  get_or_compute call_ttl policy sample fn args kwargs c key computed
  = (Return value, c).
Proof.
  intros Hkey Hlive. unfold get_or_compute, lookup_cached. simpl.
  unfold DictCache.get. by rewrite Hkey, Hlive.
Qed.

Lemma get_or_compute_hit_scenario :
  get_or_compute (λ _ _ _ _ _, Raise ValueError) (lambda_constant (Some (NInt 5))) 0
    example_f [] [] example_cache "a" (Return (PyInt 99))
  = (Return (PyInt 1), example_cache).
Proof.
  apply (get_or_compute_hit (λ _ _ _ _ _, Raise ValueError)
           (lambda_constant (Some (NInt 5))) 0 example_f [] [] example_cache "a"
           (PyInt 1) (Some (NInt 1)) (Return (PyInt 99)));
    reflexivity.
Defined.

(** X13: for every backend, when [cache.get] raises [KeyError] and the
    wrapped function raises, [get_or_compute] raises the function's
    exception and makes no [put]: the cache is as [get] left it. *)
Theorem get_or_compute_failure_not_stored
    (C : Type) (HC : Cache C)
    (call_ttl : pyobj → function → list pyobj → kwargs_t → pyobj → outcome pyobj)
    (policy : ttl_function) (sample : Q) (fn : function)
    (args : list pyobj) (kwargs : kwargs_t) (c : C) (key k : string) (e : exn) :
  fst (get c key) = Raise (KeyError k) →
  get_or_compute call_ttl policy sample fn args kwargs c key (Raise e)
  = (Raise e, snd (get c key)).
Proof.
  intros Hget. unfold get_or_compute, lookup_cached.
  destruct (get c key) as [r c']. simpl in Hget. by subst r.
Qed.

Lemma get_or_compute_failure_scenario :
  get_or_compute (λ _ _ _ _ _, Raise ValueError) (lambda_constant (Some (NInt 5))) 0
    example_f [] [] example_cache "b" (Raise ValueError)
  = (Raise ValueError, example_cache).
Proof.
  apply (get_or_compute_failure_not_stored DictCache.t DictCache_Cache
           (λ _ _ _ _ _, Raise ValueError) (lambda_constant (Some (NInt 5))) 0
           example_f [] [] example_cache "b" "b" ValueError).
  reflexivity.
Defined.

(** X14: on the discarding backend, a memoizer whose TTL specification
    was accepted stores nothing: every [get_or_compute] ends with what
    the wrapped function answered, value or failure, and leaves the
    backend as it was. *)
Theorem get_or_compute_NoCache
    (call_ttl : pyobj → function → list pyobj → kwargs_t → pyobj → outcome pyobj)
    (spec : pyobj) (policy : ttl_function) (sample : Q) (fn : function)
    (args : list pyobj) (kwargs : kwargs_t) (c : NoCache.t) (key : string)
    (computed : outcome pyobj) :
  _parse_ttl_function spec = Return policy →
  get_or_compute call_ttl policy sample fn args kwargs c key computed
  = (computed, c).
Proof.
  intros Hspec. unfold get_or_compute, lookup_cached. simpl.
  destruct computed as [value|e]; [|done]. simpl.
  destruct policy as [| | |f]; try done.
  by destruct (_parse_ttl_function_never_lambda_call spec f).
Qed.

Lemma get_or_compute_NoCache_scenario :
  get_or_compute (λ _ _ _ _ _, Raise ValueError)
    (lambda_uniform (NInt 1) (NInt 60)) (1 # 2)
    example_f [PyInt 5] [] (NoCache.Make TestClock.__init__) "m:f(5)"
    (Return (PyInt 25))
  = (Return (PyInt 25), NoCache.Make TestClock.__init__).
Proof.
  apply (get_or_compute_NoCache (λ _ _ _ _ _, Raise ValueError)
           (PyTuple [PyInt 1; PyInt 60]) (lambda_uniform (NInt 1) (NInt 60))
           (1 # 2)
           example_f [PyInt 5] [] (NoCache.Make TestClock.__init__) "m:f(5)"
           (Return (PyInt 25))).
  reflexivity.
Defined.

(** ** [invalidate] *)

(** X15: on the in-memory backend, after a computation has stored its
    value, [invalidate] of the same call returns without failure and
    the next [get_or_compute] of that call computes again: it returns
    the new answer of the wrapped function, not the value stored
    before. *)
Theorem invalidate_then_recompute `{Arith}
    (call_ttl : pyobj → function → list pyobj → kwargs_t → pyobj → outcome pyobj)
    (repr : pyobj → string) (fn : function)
    (c : DictCache.t) (km : ReprKeyMaker.t) (spec : pyobj) (m : memoizer DictCache.t)
    (sample sample' : Q) (args : list pyobj) (kwargs : kwargs_t)
    (value value' : pyobj) :
  cached c km spec = Return m →
  let key := ReprKeyMaker.__call__ repr km fn args kwargs in
  DictCache._data c !! key = None →
  let first := get_or_compute call_ttl (ttl m) sample fn args kwargs
                 (cache m) key (Return value) in
  let inv := invalidate repr fn (set_cache m (snd first)) args kwargs in
  let second := get_or_compute call_ttl (ttl m) sample' fn args kwargs
                  (cache (snd inv)) key (Return value') in
  fst first = Return value
  ∧ fst inv = Return ()
  ∧ cache (snd inv) = c
  ∧ fst second = Return value'.
Proof.
  intros Hm key Hkey first inv second.
  unfold cached in Hm.
  destruct (_parse_ttl_function spec) as [policy|] eqn:Hspec; [|done].
  injection Hm as <-. simpl in first, inv, second.
  assert (∀ s v, ∃ d,
            value_ttl call_ttl policy s fn args kwargs v = Return d) as Httl.
  { intros s v. destruct policy as [| | |f]; simpl; eauto.
    by destruct (_parse_ttl_function_never_lambda_call spec f). }
  destruct (Httl sample value) as [d Hd].
  destruct (Httl sample' value') as [d' Hd'].
  assert (first = (Return value, snd (DictCache.put c key value d))) as Hfirst.
  { subst first. unfold get_or_compute, lookup_cached. simpl.
    unfold DictCache.get. rewrite Hkey. simpl. by rewrite Hd. }
  assert (inv = (Return (),
                 {| cache := c; key_maker := km; ttl := policy; ongoing := ∅ |}))
    as Hinv.
  { subst inv. rewrite Hfirst. unfold invalidate. simpl. fold key.
    unfold DictCache.remove. simpl. rewrite lookup_insert_eq.
    rewrite delete_insert_eq, delete_id by done. by destruct c. }
  subst second. rewrite Hinv, Hfirst. simpl.
  do 3 (split; [done|]).
  unfold get_or_compute, lookup_cached. simpl.
  unfold DictCache.get. rewrite Hkey. simpl. by rewrite Hd'.
Qed.

(** [f(5)] answers 25 and is stored; after [invalidate(5)] the store is
    empty again and [f(5)] answers 26. *)
Lemma invalidate_then_recompute_scenario :
  let m := {| cache := DictCache.__init__ TestClock.__init__;
              key_maker := ReprKeyMaker.__init__;
              ttl := lambda_uniform (NInt 1) (NFloat 60); ongoing := ∅ |} in
  let first := get_or_compute (λ _ _ _ _ _, Raise ValueError) (ttl m) (1 # 2)
                 example_f [PyInt 5] [] (cache m) "m:f(5)" (Return (PyInt 25)) in
  let inv := invalidate repr_plain example_f (set_cache m (snd first))
               [PyInt 5] [] in
  fst inv = Return ()
  ∧ fst (get_or_compute (λ _ _ _ _ _, Raise ValueError) (ttl m) (1 # 2)
           example_f [PyInt 5] [] (cache (snd inv)) "m:f(5)"
           (Return (PyInt 26)))
    = Return (PyInt 26).
Proof.
  destruct (invalidate_then_recompute (λ _ _ _ _ _, Raise ValueError)
              repr_plain example_f (DictCache.__init__ TestClock.__init__)
              ReprKeyMaker.__init__ (PyTuple [PyInt 1; PyTimedelta 60])
              {| cache := DictCache.__init__ TestClock.__init__;
                 key_maker := ReprKeyMaker.__init__;
                 ttl := lambda_uniform (NInt 1) (NFloat 60); ongoing := ∅ |}
              (1 # 2) (1 # 2) [PyInt 5] [] (PyInt 25) (PyInt 26))
    as (_ & Hinv & _ & Hsecond); [reflexivity | reflexivity |].
  split; [exact Hinv | exact Hsecond].
Defined.

(** X16: on the in-memory backend [invalidate] of a call whose key is
    not in the store raises [KeyError] and leaves the memoizer as it
    was; on the discarding backend it returns without failure. *)
Theorem invalidate_absent_raises `{Arith}
    (repr : pyobj → string) (fn : function) (m : memoizer DictCache.t)
    (args : list pyobj) (kwargs : kwargs_t) :
  let key := ReprKeyMaker.__call__ repr (key_maker m) fn args kwargs in
  DictCache._data (cache m) !! key = None →
  invalidate repr fn m args kwargs = (Raise (KeyError key), m)
  ∧ ∀ m' : memoizer NoCache.t,
      invalidate repr fn m' args kwargs = (Return (), m').
Proof.
  intros key Hkey. split.
  - unfold invalidate. fold key. simpl. unfold DictCache.remove.
    rewrite Hkey. by destruct m.
  - intros m'. unfold invalidate. simpl. by destruct m'.
Qed.

(** [invalidate(5)] on a fresh memoized [f]. *)
Lemma invalidate_absent_scenario :
  fst (invalidate repr_plain example_f
         {| cache := DictCache.__init__ TestClock.__init__;
            key_maker := ReprKeyMaker.__init__;
            ttl := lambda_None; ongoing := ∅ |}
         [PyInt 5] [])
  = Raise (KeyError "m:f(5)").
Proof.
  destruct (invalidate_absent_raises repr_plain example_f
              {| cache := DictCache.__init__ TestClock.__init__;
                 key_maker := ReprKeyMaker.__init__;
                 ttl := lambda_None; ongoing := ∅ |}
              [PyInt 5] []) as [Hraise _]; [reflexivity|].
  by rewrite Hraise.
Defined.

(** ** The key maker *)

(** X17: for a callable whose first declared parameter is named [self]
    or [cls], the key does not depend on the first positional argument,
    with or without hashing: calls on two receivers with the same
    remaining arguments have the same key. *)
Theorem ReprKeyMaker_key_ignores_receiver
    (repr : pyobj → string) (km : ReprKeyMaker.t) (fn : function)
    (receiver receiver' : pyobj) (args : list pyobj) (kwargs : kwargs_t) :
  takes_receiver fn →
  ReprKeyMaker.__call__ repr km fn (receiver :: args) kwargs
  = ReprKeyMaker.__call__ repr km fn (receiver' :: args) kwargs.
Proof.
  intros Hm. apply is_method_takes_receiver in Hm.
  unfold ReprKeyMaker.__call__, ReprKeyMaker.repr_all_args. by rewrite Hm.
Qed.

Lemma ReprKeyMaker_key_ignores_receiver_scenario :
  ReprKeyMaker.__call__ repr_plain ReprKeyMaker.__init__ example_method
    [PyOther "K" "<K object at 0x1>"; PyInt 5] []
  = ReprKeyMaker.__call__ repr_plain ReprKeyMaker.__init__ example_method
      [PyOther "K" "<K object at 0x2>"; PyInt 5] [].
Proof.
  apply (ReprKeyMaker_key_ignores_receiver repr_plain ReprKeyMaker.__init__
           example_method).
  exists "self". split; [reflexivity | by left].
Defined.

(** ** The wrapper on the event loop, for any calls *)

Lemma count_if_app {A} (f : A → bool) (l l' : list A) :
  count_if f (l ++ l') = (count_if f l + count_if f l')%nat.
Proof. induction l as [|x l IH]; simpl; [done|]. rewrite IH. lia. Qed.

Lemma count_if_le_length {A} (f : A → bool) (l : list A) :
  (count_if f l ≤ length l)%nat.
Proof. induction l as [|x l IH]; simpl; [done|]. destruct (f x); lia. Qed.

Lemma count_if_insert {A} (f : A → bool) (l : list A) (i : nat) (x y : A) :
  l !! i = Some x →
  (count_if f (<[i := y]> l) + (if f x then 1 else 0)
   = count_if f l + (if f y then 1 else 0))%nat.
Proof.
  revert i. induction l as [|z l IH]; intros i Hi; [done|].
  destruct i as [|i]; simpl in *.
  - injection Hi as ->. lia.
  - specialize (IH i Hi). lia.
Qed.

Lemma lookup_insert_task (ts : list task) (p q : nat) (t t' u : task) :
  ts !! p = Some t →
  <[p := t']> ts !! q = Some u ↔
  (q = p ∧ u = t') ∨ (q ≠ p ∧ ts !! q = Some u).
Proof.
  intros Hp. destruct (decide (q = p)) as [->|Hne].
  - rewrite list_lookup_insert_eq by (by eapply lookup_lt_Some).
    split; [intros [= <-]; by left | by intros [[_ ->]|[? _]]].
  - rewrite list_lookup_insert_ne by done.
    split; [by right | by intros [[? _]|[_ ?]]].
Qed.

Section any_calls.
Context {C : Type} `{Cache C}.
Variable call_ttl :
  pyobj → function → list pyobj → kwargs_t → pyobj → outcome pyobj.
Variable repr : pyobj → string.
Variable fn : function.
Variable fn_result : nat → list pyobj → kwargs_t → outcome pyobj.
Variable samples : nat → Q.

Local Abbreviation step' := (step call_ttl repr fn fn_result samples).
Local Abbreviation run' := (run call_ttl repr fn fn_result samples).

(** A task whose state alone changes keeps its place in the table. *)
Lemma table_tracks_set_state
    (o : gmap string nat) (ts : list task) (p : nat) (t : task) (st : task_state) :
  ts !! p = Some t →
  (∀ k q, o !! k = Some q ↔
          ∃ u, ts !! q = Some u ∧ task_key u = k ∧ popped u = false) →
  ∀ k q, o !! k = Some q ↔
         ∃ u, <[p := set_state t st]> ts !! q = Some u
              ∧ task_key u = k ∧ popped u = false.
Proof.
  intros Hp Hinv k q. rewrite Hinv. split.
  - intros (u & Hq & Hk & Hpop). destruct (decide (q = p)) as [->|Hne].
    + rewrite Hp in Hq. injection Hq as <-.
      exists (set_state t st). split; [|done].
      apply (lookup_insert_task _ _ _ _ _ _ Hp). by left.
    + exists u. split; [|done].
      apply (lookup_insert_task _ _ _ _ _ _ Hp). by right.
  - intros (u & Hq & Hk & Hpop).
    apply (lookup_insert_task _ _ _ _ _ _ Hp) in Hq as [[-> ->]|[Hne Hq]]; eauto.
Qed.

Lemma step_table_tracks_tasks (e : event) (s s' : loop) :
  table_tracks_tasks s → step' e s = Some s' → table_tracks_tasks s'.
Proof.
  unfold table_tracks_tasks. intros Hinv Hstep.
  destruct e as [i|p|p|p|i]; simpl in Hstep.
  - (* Enter *)
    destruct (callers s !! i) as [[args kwargs| |]|]; try done.
    set (key := ReprKeyMaker.__call__ repr (key_maker (memo s)) fn args kwargs) in *.
    destruct (ongoing (memo s) !! key) as [pending|] eqn:Ho;
      injection Hstep as <-; simpl; [done|].
    intros k q. split.
    + destruct (decide (k = key)) as [->|Hne].
      * rewrite lookup_insert_eq. intros [= <-].
        eexists. split.
        { rewrite lookup_app_r by done. by rewrite Nat.sub_diag. }
        done.
      * rewrite lookup_insert_ne by done. intros Hq.
        apply Hinv in Hq as (u & Hq & Hk & Hpop).
        exists u. split; [|done]. by apply lookup_app_l_Some.
    + intros (u & Hq & Hk & Hpop).
      apply lookup_app_Some in Hq as [Hq|[Hlen Hq]].
      * assert (ongoing (memo s) !! k = Some q) as Hk' by (apply Hinv; eauto).
        rewrite lookup_insert_ne; [done|]. intros <-. congruence.
      * destruct (q - length (tasks s))%nat as [|d] eqn:Hd; simpl in Hq; [|done].
        injection Hq as <-. simpl in Hk. subst k.
        rewrite lookup_insert_eq. f_equal. lia.
  - (* Start *)
    destruct (tasks s !! p) as [t|] eqn:Hp; [|done].
    destruct (state t); try done.
    destruct (lookup_cached _ _) as [[r|] c]; injection Hstep as <-; simpl;
      by apply table_tracks_set_state.
  - (* Finish *)
    destruct (tasks s !! p) as [t|] eqn:Hp; [|done].
    destruct (state t); try done.
    destruct (store_computed _ _ _ _ _ _ _ _ _) as [r c].
    injection Hstep as <-. simpl. by apply table_tracks_set_state.
  - (* Callback *)
    destruct (tasks s !! p) as [t|] eqn:Hp; [|done].
    destruct (state t); try done.
    destruct (popped t) eqn:Hpop; [done|].
    injection Hstep as <-. simpl.
    assert (ongoing (memo s) !! task_key t = Some p) as Ht by (apply Hinv; eauto).
    intros k q. split.
    + intros Hq. apply lookup_delete_Some in Hq as [Hne Hq].
      apply Hinv in Hq as (u & Hq & Hk & Hpu).
      exists u. split; [|done].
      apply (lookup_insert_task _ _ _ _ _ _ Hp). right. split; [|done].
      intros ->. rewrite Hp in Hq. injection Hq as <-. done.
    + intros (u & Hq & Hk & Hpu).
      apply (lookup_insert_task _ _ _ _ _ _ Hp) in Hq as [[-> ->]|[Hne Hq]]; [done|].
      assert (ongoing (memo s) !! k = Some q) as Hk' by (apply Hinv; eauto).
      apply lookup_delete_Some. split; [|done].
      intros <-. rewrite Ht in Hk'. by injection Hk' as <-.
  - (* Resume *)
    destruct (callers s !! i) as [[| pending |]|]; try done.
    destruct (state <$> tasks s !! pending) as [[| |r]|]; try done.
    by injection Hstep as <-.
Qed.

(** X19: the table of pending tasks of a wrapper that starts empty,
    under every schedule of any calls: an entry of the table names a
    task of that key whose done-callback has not run, and every such
    task is in the table; so two tasks of one key are never pending
    together, and once every done-callback has run the table is
    empty. *)
Theorem pending_table_tracks_tasks
    (m : memoizer C) (calls : list (list pyobj * kwargs_t))
    (schedule : list event) (s : loop) :
  ongoing m = ∅ →
  run' schedule (invoke m calls) = Some s →
  table_tracks_tasks s
  ∧ (∀ p q t u,
       tasks s !! p = Some t → tasks s !! q = Some u →
       popped t = false → popped u = false →
       task_key t = task_key u → p = q)
  ∧ (Forall (λ t, popped t = true) (tasks s) → ongoing (memo s) = ∅).
Proof.
  intros Hempty Hrun.
  assert (table_tracks_tasks s) as Hinv.
  { revert Hrun.
    assert (table_tracks_tasks (invoke m calls)) as Hinit.
    { intros k p. simpl. rewrite Hempty, lookup_empty. split; [done|].
      by intros (t & [=] & _). }
    revert Hinit. generalize (invoke m calls). clear Hempty.
    induction schedule as [|e schedule IH]; intros s0 Hs0 Hrun; simpl in Hrun.
    - by injection Hrun as <-.
    - destruct (step' e s0) as [s1|] eqn:Hstep; [|done].
      eapply IH; [|done]. by eapply step_table_tracks_tasks. }
  split; [done|]. split.
  - intros p q t u Hp Hq Hpt Hpu Hk.
    assert (ongoing (memo s) !! task_key t = Some p) as H1 by (apply Hinv; eauto).
    assert (ongoing (memo s) !! task_key t = Some q) as H2 by (apply Hinv; eauto).
    congruence.
  - intros Hall. apply map_eq. intros k. rewrite lookup_empty.
    destruct (ongoing (memo s) !! k) as [p|] eqn:Hk; [|done].
    apply Hinv in Hk as (t & Hp & _ & Hpop).
    pose proof (proj1 (Forall_lookup _ _) Hall _ _ Hp) as Hpt. congruence.
Qed.

Lemma has_started_set_popped (t : task) :
  has_started (set_popped t) = has_started t.
Proof. done. Qed.

Lemma step_executions_bounded (e : event) (s s' : loop) :
  executions_bounded s → step' e s = Some s' → executions_bounded s'.
Proof.
  unfold executions_bounded. intros [Hex Hts] Hstep.
  destruct e as [i|p|p|p|i]; simpl in Hstep.
  - (* Enter *)
    destruct (callers s !! i) as [[args kwargs| |]|] eqn:Hi; try done.
    assert (∀ pending,
              count_if has_entered (<[i := Awaiting pending]> (callers s))
              = S (count_if has_entered (callers s))) as Hc.
    { intros pending.
      pose proof (count_if_insert has_entered (callers s) i _
                    (Awaiting pending) Hi) as Hc.
      simpl in Hc. lia. }
    destruct (ongoing (memo s) !! _) as [pending|];
      injection Hstep as <-; simpl; rewrite Hc.
    + lia.
    + rewrite count_if_app, length_app. simpl. lia.
  - (* Start *)
    destruct (tasks s !! p) as [t|] eqn:Hp; [|done].
    destruct (state t) eqn:Hst; try done.
    assert (has_started t = false) as Ht by (unfold has_started; by rewrite Hst).
    destruct (lookup_cached _ _) as [[r|] c]; injection Hstep as <-; simpl;
      rewrite length_insert.
    + pose proof (count_if_insert has_started (tasks s) p t
                    (set_state t (Done r)) Hp) as Hc.
      rewrite Ht in Hc. simpl in Hc. lia.
    + pose proof (count_if_insert has_started (tasks s) p t
                    (set_state t (Calling (executions s))) Hp) as Hc.
      rewrite Ht in Hc. simpl in Hc. lia.
  - (* Finish *)
    destruct (tasks s !! p) as [t|] eqn:Hp; [|done].
    destruct (state t) eqn:Hst; try done.
    assert (has_started t = true) as Ht by (unfold has_started; by rewrite Hst).
    destruct (store_computed _ _ _ _ _ _ _ _ _) as [r c].
    injection Hstep as <-. simpl. rewrite length_insert.
    pose proof (count_if_insert has_started (tasks s) p t
                  (set_state t (Done r)) Hp) as Hc.
    rewrite Ht in Hc. simpl in Hc. lia.
  - (* Callback *)
    destruct (tasks s !! p) as [t|] eqn:Hp; [|done].
    destruct (state t) eqn:Hst; try done.
    destruct (popped t); [done|].
    injection Hstep as <-. simpl. rewrite length_insert.
    pose proof (count_if_insert has_started (tasks s) p t (set_popped t) Hp) as Hc.
    rewrite has_started_set_popped in Hc. lia.
  - (* Resume *)
    destruct (callers s !! i) as [[| pending |]|] eqn:Hi; try done.
    destruct (state <$> tasks s !! pending) as [[| |r]|]; try done.
    injection Hstep as <-. simpl.
    pose proof (count_if_insert has_entered (callers s) i _ (Returned r) Hi) as Hc.
    simpl in Hc. lia.
Qed.

(** X20: under every schedule of any calls, the wrapped function has
    been executed at most once per task, and there are at most as many
    tasks as calls: the executions never exceed the calls made. *)
Theorem executions_at_most_calls
    (m : memoizer C) (calls : list (list pyobj * kwargs_t))
    (schedule : list event) (s : loop) :
  run' schedule (invoke m calls) = Some s →
  (executions s ≤ length (tasks s))%nat
  ∧ (length (tasks s) ≤ length calls)%nat.
Proof.
  intros Hrun.
  assert (executions_bounded s) as [Hex Hts].
  { revert Hrun.
    assert (executions_bounded (invoke m calls)) as Hinit.
    { split; simpl; lia. }
    revert Hinit. generalize (invoke m calls).
    induction schedule as [|e schedule IH]; intros s0 Hs0 Hrun; simpl in Hrun.
    - by injection Hrun as <-.
    - destruct (step' e s0) as [s1|] eqn:Hstep; [|done].
      eapply IH; [|done]. by eapply step_executions_bounded. }
  pose proof (count_if_le_length has_started (tasks s)).
  pose proof (count_if_le_length has_entered (callers s)).
  pose proof (run_length_callers _ _ _ _ _ _ _ _ Hrun) as Hlen.
  simpl in Hlen. rewrite length_fmap in Hlen. lia.
Qed.

End any_calls.

(** Three calls [f(5)], [f(5)], [f(6)] on an empty in-memory cache, run
    to the end: two tasks, two executions, and an empty table. *)
Lemma pending_table_scenario :
  let m := {| cache := DictCache.__init__ TestClock.__init__;
              key_maker := ReprKeyMaker.__init__;
              ttl := lambda_constant (Some (NInt 1)); ongoing := ∅ |} in
  ∃ s,
    run (λ _ _ _ _ _, Raise ValueError) repr_plain example_f
      (λ _ args _, Return (default PyNone (args !! 0%nat))) (λ _, 0)
      [Enter 0; Enter 2; Start 1; Enter 1; Start 0; Finish 0; Finish 1;
       Callback 1; Resume 2; Callback 0; Resume 0; Resume 1]
      (invoke m [([PyInt 5], []); ([PyInt 5], []); ([PyInt 6], [])]) = Some s
    ∧ callers s = [Returned (Return (PyInt 5)); Returned (Return (PyInt 5));
                   Returned (Return (PyInt 6))]
    ∧ length (tasks s) = 2%nat
    ∧ ongoing (memo s) = ∅.
Proof.
  eexists. split; [vm_compute; reflexivity|].
  split; [reflexivity|]. split; [reflexivity|].
  refine (proj2 (proj2 (pending_table_tracks_tasks
            (λ _ _ _ _ _, Raise ValueError) repr_plain example_f
            (λ _ args _, Return (default PyNone (args !! 0%nat))) (λ _, 0)
            {| cache := DictCache.__init__ TestClock.__init__;
               key_maker := ReprKeyMaker.__init__;
               ttl := lambda_constant (Some (NInt 1)); ongoing := ∅ |}
            [([PyInt 5], []); ([PyInt 5], []); ([PyInt 6], [])]
            [Enter 0; Enter 2; Start 1; Enter 1; Start 0; Finish 0; Finish 1;
             Callback 1; Resume 2; Callback 0; Resume 0; Resume 1]
            _ eq_refl _)) _).
  - vm_compute. reflexivity.
  - repeat constructor.
Defined.

Lemma executions_at_most_calls_scenario :
  let m := {| cache := DictCache.__init__ TestClock.__init__;
              key_maker := ReprKeyMaker.__init__;
              ttl := lambda_constant (Some (NInt 1)); ongoing := ∅ |} in
  ∃ s,
    run (λ _ _ _ _ _, Raise ValueError) repr_plain example_f
      (λ _ args _, Return (default PyNone (args !! 0%nat))) (λ _, 0)
      [Enter 0; Enter 2; Start 1; Enter 1; Start 0; Finish 0; Finish 1;
       Callback 1; Resume 2; Callback 0; Resume 0; Resume 1]
      (invoke m [([PyInt 5], []); ([PyInt 5], []); ([PyInt 6], [])]) = Some s
    ∧ executions s = 2%nat
    ∧ (executions s ≤ length (tasks s))%nat.
Proof.
  eexists. split; [vm_compute; reflexivity|]. split; [reflexivity|].
  refine (proj1 (executions_at_most_calls
            (λ _ _ _ _ _, Raise ValueError) repr_plain example_f
            (λ _ args _, Return (default PyNone (args !! 0%nat))) (λ _, 0)
            {| cache := DictCache.__init__ TestClock.__init__;
               key_maker := ReprKeyMaker.__init__;
               ttl := lambda_constant (Some (NInt 1)); ongoing := ∅ |}
            [([PyInt 5], []); ([PyInt 5], []); ([PyInt 6], [])]
            [Enter 0; Enter 2; Start 1; Enter 1; Start 0; Finish 0; Finish 1;
             Callback 1; Resume 2; Callback 0; Resume 0; Resume 1]
            _ _)).
  vm_compute. reflexivity.
Defined.

(** Three concurrent calls [f(5)] on an empty in-memory cache, the
    third entering while [fn] runs: one execution, whose value every
    caller receives. *)
Lemma single_flight_absent_key_scenario :
  let m := {| cache := DictCache.__init__ TestClock.__init__;
              key_maker := ReprKeyMaker.__init__;
              ttl := lambda_constant (Some (NInt 1)); ongoing := ∅ |} in
  ∃ s1 s2,
    run (λ _ _ _ _ _, Raise ValueError) repr_plain example_f
      (λ _ _ _, Return (PyInt 25)) (λ _, 0)
      [Enter 0; Enter 1; Start 0; Enter 2]
      (invoke m (replicate 3 ([PyInt 5], []))) = Some s1
    ∧ run (λ _ _ _ _ _, Raise ValueError) repr_plain example_f
        (λ _ _ _, Return (PyInt 25)) (λ _, 0)
        [Finish 0; Callback 0; Resume 2; Resume 0; Resume 1] s1 = Some s2
    ∧ callers s2 = replicate 3 (Returned (Return (PyInt 25)))
    ∧ executions s2 = 1%nat.
Proof.
  eexists. eexists. split; [vm_compute; reflexivity|].
  split; [vm_compute; reflexivity|]. split; [reflexivity|].
  refine (proj1 (single_flight_absent_key
            (λ _ _ _ _ _, Raise ValueError) repr_plain example_f
            (λ _ _ _, Return (PyInt 25)) (λ _, 0)
            (DictCache.__init__ TestClock.__init__) ReprKeyMaker.__init__
            (PyInt 1) (lambda_constant (Some (NInt 1))) "m:f(5)" 2 [PyInt 5] []
            [Enter 0; Enter 1; Start 0; Enter 2]
            [Finish 0; Callback 0; Resume 2; Resume 0; Resume 1]
            _ _ _ _ _ _ _ _ _ 0%nat (Return (PyInt 25)) _)).
  - reflexivity.
  - reflexivity.
  - vm_compute. reflexivity.
  - reflexivity.
  - vm_compute. reflexivity.
  - reflexivity.
  - vm_compute. reflexivity.
  - reflexivity.
Defined.

(** ** One call after another *)

(** X21: memoization on the in-memory backend, the TTL a number or a
    [timedelta] whose sum with the clock's time, as Python computes it,
    is not before the clock's time: a first call whose key is absent
    executes the wrapped function and stores its value; a second call
    with the same arguments, made after the first has returned and with
    the clock where it was, starts a task of its own that takes the
    value from the cache; the function has been executed once and both
    callers have its first value. *)
Theorem second_call_is_served_from_cache `{Arith}
    (call_ttl : pyobj → function → list pyobj → kwargs_t → pyobj → outcome pyobj)
    (repr : pyobj → string) (fn : function)
    (fn_result : nat → list pyobj → kwargs_t → outcome pyobj)
    (samples : nat → Q)
    (c0 : DictCache.t) (km : ReprKeyMaker.t) (spec : pyobj)
    (m : memoizer DictCache.t)
    (args : list pyobj) (kwargs : kwargs_t) (value : pyobj) :
  is_duration spec →
  num_value (TestClock.now (DictCache.clock c0))
  <= num_value (add (seconds_of spec) (TestClock.now (DictCache.clock c0))) →
  cached c0 km spec = Return m →
  DictCache._data c0 !! ReprKeyMaker.__call__ repr km fn args kwargs = None →
  fn_result 0%nat args kwargs = Return value →
  ∃ s,
    run call_ttl repr fn fn_result samples
      [Enter 0; Start 0; Finish 0; Callback 0; Resume 0;
       Enter 1; Start 1; Callback 1; Resume 1]
      (invoke m (replicate 2 (args, kwargs))) = Some s
    ∧ callers s = replicate 2 (Returned (Return value))
    ∧ executions s = 1%nat
    ∧ length (tasks s) = 2%nat
    ∧ ongoing (memo s) = ∅.
Proof.
  intros Hd Hpos Hm Hkey Hfn.
  assert (_parse_ttl_function spec
          = Return (lambda_constant (Some (seconds_of spec)))) as Hp.
  { by destruct spec. }
  unfold cached in Hm. rewrite Hp in Hm. injection Hm as <-.
  set (key := ReprKeyMaker.__call__ repr km fn args kwargs) in *.
  assert (lookup_cached c0 key = (None, c0)) as Hmiss.
  { unfold lookup_cached. simpl. unfold DictCache.get. by rewrite Hkey. }
  set (c1 := DictCache.Make (DictCache.clock c0)
               (<[key := (value,
                          Some (add (seconds_of spec)
                                  (TestClock.now (DictCache.clock c0))))]>
                  (DictCache._data c0))).
  assert (lookup_cached c1 key = (Some (Return value), c1)) as Hhit.
  { unfold lookup_cached. simpl. unfold DictCache.get. simpl.
    rewrite lookup_insert_eq.
    assert (live (Some (add (seconds_of spec)
                          (TestClock.now (DictCache.clock c0))))
              (TestClock.now (DictCache.clock c0)) = true) as ->; [|done].
    apply live_true_iff. right. eauto. }
  eexists. split.
  - simpl. fold key. rewrite lookup_empty. simpl. rewrite Hmiss. simpl.
    rewrite Hfn. simpl. rewrite lookup_delete_eq. simpl.
    fold key. fold c1. rewrite Hhit. simpl. reflexivity.
  - simpl. split; [done|]. split; [done|]. split; [done|].
    fold key. by rewrite delete_insert_eq, delete_insert_eq, delete_empty.
Qed.

(** [cached(ttl=60)] around [f]: [f(5)] twice in a row; the second call
    does not execute [f]. *)
Lemma second_call_scenario :
  ∃ s,
    run (λ _ _ _ _ _, Raise ValueError) repr_plain example_f
      (λ n _ _, Return (PyInt (25 + Z.of_nat n))) (λ _, 0)
      [Enter 0; Start 0; Finish 0; Callback 0; Resume 0;
       Enter 1; Start 1; Callback 1; Resume 1]
      (invoke {| cache := DictCache.__init__ TestClock.__init__;
                 key_maker := ReprKeyMaker.__init__;
                 ttl := lambda_constant (Some (NInt 60)); ongoing := ∅ |}
              (replicate 2 ([PyInt 5], []))) = Some s
    ∧ callers s = replicate 2 (Returned (Return (PyInt 25)))
    ∧ executions s = 1%nat.
Proof.
  destruct (second_call_is_served_from_cache
              (λ _ _ _ _ _, Raise ValueError) repr_plain example_f
              (λ n _ _, Return (PyInt (25 + Z.of_nat n))) (λ _, 0)
              (DictCache.__init__ TestClock.__init__) ReprKeyMaker.__init__
              (PyInt 60)
              {| cache := DictCache.__init__ TestClock.__init__;
                 key_maker := ReprKeyMaker.__init__;
                 ttl := lambda_constant (Some (NInt 60)); ongoing := ∅ |}
              [PyInt 5] [] (PyInt 25))
    as (s & Hrun & Hcallers & Hex & _);
    [exact I | discriminate | reflexivity | reflexivity | reflexivity |].
  exists s. split; [exact Hrun|]. split; [exact Hcallers | exact Hex].
Defined.

(** X22: a failure is not remembered. On the in-memory backend, the TTL
    a number or a [timedelta]: when the first call finds its key absent
    and the wrapped function raises, the caller receives that
    exception; a second call with the same arguments, made after the
    first has returned, executes the function again, receives its
    value, and the value is stored. *)
Theorem failed_call_is_retried `{Arith}
    (call_ttl : pyobj → function → list pyobj → kwargs_t → pyobj → outcome pyobj)
    (repr : pyobj → string) (fn : function)
    (fn_result : nat → list pyobj → kwargs_t → outcome pyobj)
    (samples : nat → Q)
    (c0 : DictCache.t) (km : ReprKeyMaker.t) (spec : pyobj)
    (m : memoizer DictCache.t)
    (args : list pyobj) (kwargs : kwargs_t) (e : exn) (value : pyobj) :
  is_duration spec →
  cached c0 km spec = Return m →
  DictCache._data c0 !! ReprKeyMaker.__call__ repr km fn args kwargs = None →
  fn_result 0%nat args kwargs = Raise e →
  fn_result 1%nat args kwargs = Return value →
  ∃ s,
    run call_ttl repr fn fn_result samples
      [Enter 0; Start 0; Finish 0; Callback 0; Resume 0;
       Enter 1; Start 1; Finish 1; Callback 1; Resume 1]
      (invoke m (replicate 2 (args, kwargs))) = Some s
    ∧ callers s = [Returned (Raise e); Returned (Return value)]
    ∧ executions s = 2%nat
    ∧ DictCache._data (cache (memo s))
        !! ReprKeyMaker.__call__ repr km fn args kwargs
      = Some (value,
              Some (add (seconds_of spec) (TestClock.now (DictCache.clock c0))))
    ∧ ongoing (memo s) = ∅.
Proof.
  intros Hd Hm Hkey Hfn0 Hfn1.
  assert (_parse_ttl_function spec
          = Return (lambda_constant (Some (seconds_of spec)))) as Hp.
  { by destruct spec. }
  unfold cached in Hm. rewrite Hp in Hm. injection Hm as <-.
  set (key := ReprKeyMaker.__call__ repr km fn args kwargs) in *.
  assert (lookup_cached c0 key = (None, c0)) as Hmiss.
  { unfold lookup_cached. simpl. unfold DictCache.get. by rewrite Hkey. }
  eexists. split.
  - simpl. fold key. rewrite lookup_empty. simpl. rewrite Hmiss. simpl.
    rewrite Hfn0. simpl. rewrite lookup_delete_eq. simpl.
    fold key. rewrite Hmiss. simpl. rewrite Hfn1. simpl. reflexivity.
  - simpl. split; [done|]. split; [done|]. fold key.
    split; [by rewrite lookup_insert_eq|].
    by rewrite delete_insert_eq, delete_insert_eq, delete_empty.
Qed.

Lemma failed_call_scenario :
  ∃ s,
    run (λ _ _ _ _ _, Raise ValueError) repr_plain example_f
      (λ n _ _, match n with O => Raise ValueError | _ => Return (PyInt 25) end)
      (λ _, 0)
      [Enter 0; Start 0; Finish 0; Callback 0; Resume 0;
       Enter 1; Start 1; Finish 1; Callback 1; Resume 1]
      (invoke {| cache := DictCache.__init__ TestClock.__init__;
                 key_maker := ReprKeyMaker.__init__;
                 ttl := lambda_constant (Some (NInt 60)); ongoing := ∅ |}
              (replicate 2 ([PyInt 5], []))) = Some s
    ∧ callers s = [Returned (Raise ValueError); Returned (Return (PyInt 25))]
    ∧ executions s = 2%nat.
Proof.
  destruct (failed_call_is_retried
              (λ _ _ _ _ _, Raise ValueError) repr_plain example_f
              (λ n _ _, match n with
                        | O => Raise ValueError
                        | _ => Return (PyInt 25)
                        end) (λ _, 0)
              (DictCache.__init__ TestClock.__init__) ReprKeyMaker.__init__
              (PyInt 60)
              {| cache := DictCache.__init__ TestClock.__init__;
                 key_maker := ReprKeyMaker.__init__;
                 ttl := lambda_constant (Some (NInt 60)); ongoing := ∅ |}
              [PyInt 5] [] ValueError (PyInt 25))
    as (s & Hrun & Hcallers & Hex & _);
    [exact I | reflexivity | reflexivity | reflexivity | reflexivity |].
  exists s. split; [exact Hrun|]. split; [exact Hcallers | exact Hex].
Defined.

(** Three concurrent calls [f(5)] on the discarding backend: one
    execution, and the three callers receive its value. *)
Lemma single_flight_all_return_scenario :
  ∃ s,
    run (λ _ _ _ _ _, Raise ValueError) repr_plain example_f
      (λ _ _ _, Return (PyInt 25)) (λ _, 0)
      ((Enter <$> seq 0 3) ++ [Start 0; Finish 0; Callback 0]
       ++ (Resume <$> seq 0 3))
      (invoke {| cache := NoCache.Make TestClock.__init__;
                 key_maker := ReprKeyMaker.__init__;
                 ttl := lambda_None; ongoing := ∅ |}
              (replicate 3 ([PyInt 5], []))) = Some s
    ∧ callers s = replicate 3 (Returned (Return (PyInt 25)))
    ∧ executions s = 1%nat.
Proof.
  exact (single_flight_all_return (λ _ _ _ _ _, Raise ValueError) repr_plain
           example_f (λ _ _ _, Return (PyInt 25)) (λ _, 0)
           (NoCache.Make TestClock.__init__) ReprKeyMaker.__init__ lambda_None
           "m:f(5)" [PyInt 5] [] eq_refl eq_refl 2).
Defined.

(** ** The snapshot after a change *)

(** X24: on the in-memory backend, the snapshot after [put]: with no
    TTL, or with a TTL whose sum with the clock's time, as Python
    computes it, is not before the clock's time, it is the snapshot
    before with the key mapped to the new value; when that sum is
    before the clock's time the entry is stored already expired and the
    key is missing from the snapshot. *)
Theorem DictCache_data_after_put `{Arith}
    (self : DictCache.t) (key : string) (value : pyobj) :
  let now := TestClock.now (DictCache.clock self) in
  ∃ snapshot,
    fst (DictCache.data self) = Return snapshot
    ∧ fst (DictCache.data (snd (DictCache.put self key value None)))
      = Return (<[key := value]> snapshot)
    ∧ (∀ d, num_value now <= num_value (add d now) →
         fst (DictCache.data (snd (DictCache.put self key value (Some d))))
         = Return (<[key := value]> snapshot))
    ∧ (∀ d, num_value (add d now) < num_value now →
         fst (DictCache.data (snd (DictCache.put self key value (Some d))))
         = Return (delete key snapshot)).
Proof.
  intros now. subst now.
  eexists. split; [done|]. unfold DictCache.data. simpl.
  split; [|split].
  - f_equal. by rewrite map_filter_insert_True, fmap_insert.
  - intros d Hd. f_equal. rewrite map_filter_insert_True, fmap_insert; [done|].
    simpl. by apply Qle_bool_iff.
  - intros d Hd. f_equal.
    rewrite map_filter_insert_False, map_filter_delete, fmap_delete; [done|].
    simpl. intros Hle. apply Qle_bool_iff in Hle.
    by apply (Qlt_not_le _ _ Hd).
Qed.

(** After [put("a", 1, ttl=1)] on the empty cache the snapshot is
    [{"a": 1}]; after [put("a", 1, ttl=-1)] it is empty. *)
Lemma DictCache_data_after_put_scenario :
  fst (DictCache.data example_cache) = Return {[ "a" := PyInt 1 ]}
  ∧ fst (DictCache.data
           (snd (DictCache.put (DictCache.__init__ TestClock.__init__)
                   "a" (PyInt 1) (Some (NInt (-1))))))
    = Return ∅.
Proof.
  destruct (DictCache_data_after_put (DictCache.__init__ TestClock.__init__)
              "a" (PyInt 1)) as (snapshot & Hsnap & _ & Hlive & Hdead).
  injection Hsnap as <-. split.
  - unfold example_cache. rewrite (Hlive (NInt 1)) by discriminate.
    vm_compute. reflexivity.
  - rewrite (Hdead (NInt (-1))) by reflexivity. vm_compute. reflexivity.
Defined.

(** X25: on the in-memory backend, the snapshot after [remove] of a
    stored key is the snapshot before without that key. *)
Theorem DictCache_data_after_remove
    (self : DictCache.t) (key : string) (e : pyobj * option number) :
  DictCache._data self !! key = Some e →
  ∃ snapshot,
    fst (DictCache.data self) = Return snapshot
    ∧ fst (DictCache.data (snd (DictCache.remove self key)))
      = Return (delete key snapshot).
Proof.
  intros Hkey. eexists. split; [done|].
  unfold DictCache.remove. rewrite Hkey. unfold DictCache.data. simpl.
  by rewrite map_filter_delete, fmap_delete.
Qed.

Lemma DictCache_data_after_remove_scenario :
  fst (DictCache.data (snd (DictCache.remove example_cache "a"))) = Return ∅.
Proof.
  destruct (DictCache_data_after_remove example_cache "a" (PyInt 1, Some (NInt 1)))
    as (snapshot & Hsnap & Hafter); [reflexivity|].
  rewrite Hafter. injection Hsnap as <-. vm_compute. reflexivity.
Defined.
